(** * JUNOLLM: the journal-entry endpoint

    A shallow embedding of [src/main.py], [src/auth.py], [src/database.py]
    and the parts of [src/models.py] that the endpoint touches.

    - Python [str] values are sequences of Unicode code points ([pystr]).
    - The handler is stateful and fallible: it is written in a small
      state-and-exception monad [M] whose state holds the SQLAlchemy session
      and a trace of the external effects performed so far.
    - Everything the process does not decide itself (the LLM reply, the
      output parser of the library, the clock, storage faults) is read from
      an environment record [Env]. *)

From Stdlib Require Import ZArith NArith String Ascii List Lia Bool.
From Stdlib Require Import DecimalString.
From stdpp Require Import base option list countable gmap.

Import ListNotations.
Local Open Scope Z_scope.

(** ** Python strings *)

Module PyStr.

(** A Python [str]: the list of its code points. *)
Definition pystr : Type := list N.

(** A string literal of the source, as a [pystr]. *)
Definition py (s : string) : pystr :=
  List.map N_of_ascii (list_ascii_of_string s).

(** [str(n)] for an [int]. *)
Definition str_of_int (n : Z) : pystr :=
  py (NilZero.string_of_int (Z.to_int n)).

(** [bool(s)] for a [str]: only the empty string is falsy. *)
Definition truthy (s : pystr) : bool :=
  match s with [] => false | _ :: _ => true end.

(** [c.isspace()] as [str.split] uses it (CPython's
    [_PyUnicode_IsWhitespace]). *)
Definition isspace (c : N) : bool :=
  (((9 <=? c) && (c <=? 13)) || ((28 <=? c) && (c <=? 32))
   || (c =? 133) || (c =? 160) || (c =? 5760)
   || ((8192 <=? c) && (c <=? 8202))
   || (c =? 8232) || (c =? 8233) || (c =? 8239) || (c =? 8287)
   || (c =? 12288))%N.

(** [s.split()] with no separator: the scan of CPython's
    [split_whitespace].  [cur] is the word being read, reversed; [None]
    while the scan is between words. *)
Fixpoint split_scan (cur : option pystr) (s : pystr) : list pystr :=
  match s with
  | [] =>
      match cur with
      | None => []
      | Some w => [rev w]
      end
  | c :: rest =>
      if isspace c then
        match cur with
        | None => split_scan None rest
        | Some w => rev w :: split_scan None rest
        end
      else
        match cur with
        | None => split_scan (Some [c]) rest
        | Some w => split_scan (Some (c :: w)) rest
        end
  end.

Definition split (s : pystr) : list pystr := split_scan None s.

(** The number of whitespace-separated tokens of a text, said directly:
    the number of positions where a word starts, that is where a
    character that is not whitespace stands first or follows
    whitespace.  [prev_space] tells whether the previous character was
    whitespace (or there was none). *)
Fixpoint count_word_starts (prev_space : bool) (s : pystr) : nat :=
  match s with
  | [] => 0%nat
  | c :: rest =>
      if isspace c then count_word_starts true rest
      else ((if prev_space then 1 else 0) + count_word_starts false rest)%nat
  end.

Definition whitespace_token_count (s : pystr) : nat :=
  count_word_starts true s.

End PyStr.
Export PyStr.

(** ** The schema ([src/models.py]) *)

(** Values of the schema-less JSON columns ([Dict[str, Any]]).  The endpoint
    only ever stores a string under one key, so nested values are left out. *)
Inductive py_any : Type :=
| AnyNone
| AnyBool (b : bool)
| AnyInt (n : Z)
| AnyStr (s : pystr).

(** [class EntryStatus(str, Enum)] *)
Inductive EntryStatus : Type := DRAFT | PUBLISHED | ARCHIVED.

Definition EntryStatus_members : list EntryStatus := [DRAFT; PUBLISHED; ARCHIVED].

Definition EntryStatus_value (s : EntryStatus) : pystr :=
  match s with
  | DRAFT => py "draft"
  | PUBLISHED => py "published"
  | ARCHIVED => py "archived"
  end.

(** [EntryStatus(v)]: the member whose value is [v], if there is one. *)
Definition EntryStatus_of_value (v : pystr) : option EntryStatus :=
  List.find (fun s => bool_decide (EntryStatus_value s = v)) EntryStatus_members.

(** [datetime.date] *)
Record date : Type := { year : Z; month : Z; day : Z }.

Module User.
(** A persisted row of table [user]; the columns no handler reads
    (avatar, preferences, timestamps) are left out. *)
Record t : Type := {
  user_id : Z;
  name : pystr;
  email : pystr;
  password_hash : pystr;
  role : Z
}.
End User.

Module JournalEntry.
(** [class JournalEntry(SQLModel, table=True)].  The two timestamp columns
    are filled by defaults and read by nothing here; they are left out. *)
Record t : Type := {
  journal_entry_id : option Z;
  user_id : Z;
  entry_date : date;
  text : option pystr;
  sentiment_score : option Z;
  ai_suggestion : option (gmap pystr py_any);
  chat_log : option (gmap pystr py_any);
  entry_status : option EntryStatus;
  word_count : Z
}.

Definition with_id (i : Z) (r : t) : t :=
  {| journal_entry_id := Some i;
     user_id := user_id r;
     entry_date := entry_date r;
     text := text r;
     sentiment_score := sentiment_score r;
     ai_suggestion := ai_suggestion r;
     chat_log := chat_log r;
     entry_status := entry_status r;
     word_count := word_count r |}.
End JournalEntry.

(** ** Request and response models ([src/main.py]) *)

Module SimplifiedAnalysis.
Record t : Type := { sentimentScore : Z; counsel : pystr }.
End SimplifiedAnalysis.

Module EntryCreateRequest.
Record t : Type := { text : pystr; entry_status : EntryStatus }.

(** The JSON body before validation: each field present or not. *)
Record raw : Type := {
  raw_text : option pystr;
  raw_entry_status : option pystr
}.

(** Validation of the body against the class: [text] is required,
    [entry_status] falls back to its declared default and must otherwise
    name a member of [EntryStatus]. *)
Definition validate (b : raw) : option t :=
  match raw_text b with
  | None => None
  | Some txt =>
      match raw_entry_status b with
      | None => Some {| text := txt; entry_status := PUBLISHED |}
      | Some v =>
          match EntryStatus_of_value v with
          | None => None
          | Some s => Some {| text := txt; entry_status := s |}
          end
      end
  end.
End EntryCreateRequest.

(** ** Exceptions *)

Inductive exc : Type :=
| HTTPException (status_code : Z) (detail : pystr)
| RequestValidationError
| PyError (msg : pystr).

(** [str(e)], as the f-strings of the handler embed it. *)
Definition exc_str (e : exc) : pystr :=
  match e with
  | HTTPException c d => str_of_int c ++ py ": " ++ d
  | RequestValidationError => py "RequestValidationError"
  | PyError msg => msg
  end.

Inductive result (A : Type) : Type :=
| Ok (a : A)
| Raise (e : exc).
Arguments Ok {A} a.
Arguments Raise {A} e.

(** ** The database and the SQLAlchemy session *)

Record Database : Type := {
  user_table : list User.t;
  journal_entry_table : list JournalEntry.t
}.

(** A session: the database it is bound to, the objects added and not yet
    flushed ([session.new]), and whether it has been closed. *)
Record Session : Type := {
  bind : Database;
  new : list JournalEntry.t;
  closed : bool
}.

(** The external effects a request performs, in order. *)
Inductive Event : Type :=
| SessionOpen
| SessionGet (pk : Z)
| LlmInvoke (prompt : pystr)
| SessionAdd
| SessionCommit
| SessionRefresh
| SessionRollback
| SessionClose.

Definition is_llm_invoke (ev : Event) : bool :=
  match ev with LlmInvoke _ => true | _ => false end.

Definition is_session_get (ev : Event) : bool :=
  match ev with SessionGet _ => true | _ => false end.

Definition is_open_or_close (ev : Event) : bool :=
  match ev with SessionOpen | SessionClose => true | _ => false end.

Definition is_write (ev : Event) : bool :=
  match ev with SessionAdd | SessionCommit => true | _ => false end.

(** What one request reads from outside the process. *)
Record Env : Type := {
  today : date;                                   (* date.today() *)
  format_instructions : pystr;                    (* parser.get_format_instructions() *)
  llm_reply : pystr -> result pystr;              (* llm.invoke(p).content, or what it raises *)
  parser_parse : pystr -> result SimplifiedAnalysis.t;  (* parser.parse *)
  add_fault : option pystr;                       (* session.add raises this *)
  commit_fault : option pystr;                    (* session.commit raises this *)
  refresh_fault : option pystr                    (* session.refresh raises this *)
}.

(** The autoincrement primary key: one more than the largest key in use. *)
Definition next_journal_entry_id (rows : list JournalEntry.t) : Z :=
  1 + List.fold_right
        (fun r acc => Z.max (default 0 (JournalEntry.journal_entry_id r)) acc)
        0 rows.

(** INSERT of one pending object. *)
Definition insert_journal_entry
    (rows : list JournalEntry.t) (r : JournalEntry.t) : list JournalEntry.t :=
  match JournalEntry.journal_entry_id r with
  | Some _ => rows ++ [r]
  | None => rows ++ [JournalEntry.with_id (next_journal_entry_id rows) r]
  end.

Definition Session_new (engine : Database) : Session :=
  {| bind := engine; new := []; closed := false |}.

(** A successful flush and COMMIT: every pending object becomes a row. *)
Definition Session_flush (s : Session) : Session :=
  {| bind :=
       {| user_table := user_table (bind s);
          journal_entry_table :=
            List.fold_left insert_journal_entry (new s)
                           (journal_entry_table (bind s)) |};
     new := [];
     closed := closed s |}.

(** ROLLBACK: pending objects are expunged, committed rows stay. *)
Definition Session_expunge (s : Session) : Session :=
  {| bind := bind s; new := []; closed := closed s |}.

Definition Session_close (s : Session) : Session :=
  {| bind := bind s; new := []; closed := true |}.

(** ** The monad of a request *)

Record State : Type := { session : Session; trace : list Event }.

Definition M (A : Type) : Type := State -> result A * State.

Definition ret {A} (a : A) : M A := fun st => (Ok a, st).

Definition raise {A} (e : exc) : M A := fun st => (Raise e, st).

Definition bind_M {A B} (m : M A) (k : A -> M B) : M B :=
  fun st =>
    match m st with
    | (Ok a, st') => k a st'
    | (Raise e, st') => (Raise e, st')
    end.

(** [try: m  except Exception as e: h e] *)
Definition try_except {A} (m : M A) (h : exc -> M A) : M A :=
  fun st =>
    match m st with
    | (Ok a, st') => (Ok a, st')
    | (Raise e, st') => h e st'
    end.

Definition lift_result {A} (r : result A) : M A := fun st => (r, st).

Definition emit (ev : Event) : M unit :=
  fun st => (Ok tt, {| session := session st; trace := trace st ++ [ev] |}).

Definition modify_session (f : Session -> Session) : M unit :=
  fun st => (Ok tt, {| session := f (session st); trace := trace st |}).

Definition get_session_state : M Session := fun st => (Ok (session st), st).

#[global] Instance M_ret : MRet M := @ret.
#[global] Instance M_bind : MBind M := fun A B k m => bind_M m k.

(** ** The external calls *)

Section Request.
Context (env : Env).

(** [llm.invoke(p).content] *)
Definition llm_invoke (p : pystr) : M pystr :=
  emit (LlmInvoke p) ;; lift_result (llm_reply env p).

(** [session.get(User, pk)]: the row with that primary key, or [None]. *)
Definition Session_get (pk : Z) : M (option User.t) :=
  emit (SessionGet pk) ;;
  s ← get_session_state ;
  mret (List.find (fun u => User.user_id u =? pk) (user_table (bind s))).

Definition Session_add (row : JournalEntry.t) : M unit :=
  emit SessionAdd ;;
  match add_fault env with
  | Some msg => raise (PyError msg)
  | None =>
      modify_session
        (fun s => {| bind := bind s; new := new s ++ [row]; closed := closed s |})
  end.

(** A failed commit leaves no row behind: the database undoes the
    transaction as a whole. *)
Definition Session_commit : M unit :=
  emit SessionCommit ;;
  match commit_fault env with
  | Some msg => raise (PyError msg)
  | None => modify_session Session_flush
  end.

(** [session.refresh(row)] reads the row back; the handler does not use
    what it loads. *)
Definition Session_refresh (row : JournalEntry.t) : M unit :=
  emit SessionRefresh ;;
  match refresh_fault env with
  | Some msg => raise (PyError msg)
  | None => mret tt
  end.

Definition Session_rollback : M unit :=
  emit SessionRollback ;; modify_session Session_expunge.

(** ** [src/main.py] *)

(** [prompt.invoke({"entry": entry})]: the template with both variables
    filled in. *)
Definition prompt_invoke (entry : pystr) : pystr :=
  py "
You are a compassionate journaling assistant. Analyze the following journal entry.
Follow the instructions and format your response to match the format instructions, no matter what!
" ++ format_instructions env ++ py "
---
JOURNAL ENTRY:
" ++ entry ++ py "
".

Definition analyze_and_save_entry
    (entry_data : EntryCreateRequest.t) (current_user : User.t)
    : M SimplifiedAnalysis.t :=
  if negb (truthy (EntryCreateRequest.text entry_data)) then
    raise (HTTPException 400 (py "Entry text cannot be empty."))
  else
    let final_prompt := prompt_invoke (EntryCreateRequest.text entry_data) in
    analysis_result ←
      try_except
        (output ← llm_invoke final_prompt ;
         lift_result (parser_parse env output))
        (fun e =>
           raise (HTTPException 500
                    (py "Failed to get a structured response from the AI: "
                     ++ exc_str e))) ;
    try_except
      (let db_journal_entry :=
         {| JournalEntry.journal_entry_id := None;
            JournalEntry.user_id := User.user_id current_user;
            JournalEntry.entry_date := today env;
            JournalEntry.text := Some (EntryCreateRequest.text entry_data);
            JournalEntry.sentiment_score :=
              Some (SimplifiedAnalysis.sentimentScore analysis_result);
            JournalEntry.ai_suggestion :=
              Some {[ py "counsel" :=
                        AnyStr (SimplifiedAnalysis.counsel analysis_result) ]};
            JournalEntry.chat_log := None;
            JournalEntry.entry_status :=
              Some (EntryCreateRequest.entry_status entry_data);
            JournalEntry.word_count :=
              Z.of_nat (length (split (EntryCreateRequest.text entry_data))) |} in
       Session_add db_journal_entry ;;
       Session_commit ;;
       Session_refresh db_journal_entry)
      (fun db_e =>
         Session_rollback ;;
         raise (HTTPException 500
                  (py "Failed to save the entry to the database: "
                   ++ exc_str db_e))) ;;
    mret analysis_result.

(** ** [src/auth.py] *)

Definition get_current_user (x_user_id : option Z) : M User.t :=
  match x_user_id with
  | None =>
      raise (HTTPException 401
               (py "User ID must be provided in the 'X-User-Id' header."))
  | Some uid =>
      user ← Session_get uid ;
      match user with
      | None =>
          raise (HTTPException 404
                   (py "User with ID " ++ str_of_int uid ++ py " not found."))
      | Some u => mret u
      end
  end.

(** ** [src/database.py] *)

(** [get_session] is a generator: it opens a session in a [with] block and
    yields it; when the request is over the framework resumes it, with the
    exception of the request if there was one, and the [with] block closes
    the session on the way out either way and lets the exception pass.
    [request] is what runs between the [yield] and the resumption. *)
Definition get_session {A} (engine : Database) (request : M A)
    : result A * State :=
  let entered := {| session := Session_new engine; trace := [SessionOpen] |} in
  match request entered with
  | (Ok a, st) =>
      (Ok a,
       {| session := Session_close (session st);
          trace := trace st ++ [SessionClose] |})
  | (Raise e, st) =>
      (Raise e,
       {| session := Session_close (session st);
          trace := trace st ++ [SessionClose] |})
  end.

(** ** One request to [POST /analyze-entry]

    The framework resolves the dependencies in order ([get_session], then
    [get_current_user] on that session), validates the body, and calls
    the endpoint. *)
Definition post_analyze_entry
    (engine : Database) (x_user_id : option Z) (body : EntryCreateRequest.raw)
    : result SimplifiedAnalysis.t * State :=
  get_session engine
    (current_user ← get_current_user x_user_id ;
     match EntryCreateRequest.validate body with
     | None => raise RequestValidationError
     | Some entry_data => analyze_and_save_entry entry_data current_user
     end).

End Request.

(** The status code and body the client sees. *)
Definition status_of {A} (r : result A) : Z :=
  match r with
  | Ok _ => 200
  | Raise (HTTPException c _) => c
  | Raise RequestValidationError => 422
  | Raise (PyError _) => 500
  end.

(** The five errors of the endpoint. *)
Definition Unauthenticated (e : exc) : Prop :=
  exists d, e = HTTPException 401 d.
Definition NotFound (e : exc) : Prop :=
  exists d, e = HTTPException 404 d.
Definition BadRequest (e : exc) : Prop :=
  exists d, e = HTTPException 400 d.
Definition UpstreamAnalysisFailure (cause : exc) (e : exc) : Prop :=
  e = HTTPException 500
        (py "Failed to get a structured response from the AI: " ++ exc_str cause).
Definition PersistenceFailure (cause : exc) (e : exc) : Prop :=
  e = HTTPException 500
        (py "Failed to save the entry to the database: " ++ exc_str cause).

Definition rows_of (st : State) : list JournalEntry.t :=
  journal_entry_table (bind (session st)).

(** The row the endpoint builds for a request, as §4.2 of the design lists
    its columns; [analysis] is what the Analysis Requester returned.  The
    primary key is still unset. *)
Definition described_row
    (env : Env) (entry_data : EntryCreateRequest.t) (current_user : User.t)
    (analysis : SimplifiedAnalysis.t) : JournalEntry.t :=
  {| JournalEntry.journal_entry_id := None;
     JournalEntry.user_id := User.user_id current_user;
     JournalEntry.entry_date := today env;
     JournalEntry.text := Some (EntryCreateRequest.text entry_data);
     JournalEntry.sentiment_score :=
       Some (SimplifiedAnalysis.sentimentScore analysis);
     JournalEntry.ai_suggestion :=
       Some {[ py "counsel" := AnyStr (SimplifiedAnalysis.counsel analysis) ]};
     JournalEntry.chat_log := None;
     JournalEntry.entry_status :=
       Some (EntryCreateRequest.entry_status entry_data);
     JournalEntry.word_count :=
       Z.of_nat (length (split (EntryCreateRequest.text entry_data))) |}.

(** The session after [add] of one object. *)
Definition Session_with_pending (s : Session) (row : JournalEntry.t) : Session :=
  {| bind := bind s; new := new s ++ [row]; closed := closed s |}.

(** ** A running instance

    User 7 exists, the model answers, the library parses the answer, and
    storage works; the variants below change one of these at a time. *)
Module Demo.

Definition user7 : User.t :=
  {| User.user_id := 7;
     User.name := py "Ada";
     User.email := py "ada@example.org";
     User.password_hash := py "$2b$12$abcdefghijklmnopqrstuv";
     User.role := 0 |}.

Definition engine : Database :=
  {| user_table := [user7]; journal_entry_table := [] |}.

Definition analysis : SimplifiedAnalysis.t :=
  {| SimplifiedAnalysis.sentimentScore := 6;
     SimplifiedAnalysis.counsel := py "Keep noticing what made the day good." |}.

(** An answer outside the bounds the prompt asks for. *)
Definition unbounded_analysis : SimplifiedAnalysis.t :=
  {| SimplifiedAnalysis.sentimentScore := 42;
     SimplifiedAnalysis.counsel := [] |}.

Definition reply : pystr := py "<structured reply: 6>".
Definition unbounded_reply : pystr := py "<structured reply: 42>".

Definition parse (out : pystr) : result SimplifiedAnalysis.t :=
  if bool_decide (out = reply) then Ok analysis
  else if bool_decide (out = unbounded_reply) then Ok unbounded_analysis
  else Raise (PyError (py "Invalid json output")).

Definition make_env (llm : pystr -> result pystr)
    (on_add on_commit on_refresh : option pystr) : Env :=
  {| today := {| year := 2024; month := 5; day := 17 |};
     format_instructions := py "The output should be formatted as a JSON instance.";
     llm_reply := llm;
     parser_parse := parse;
     add_fault := on_add;
     commit_fault := on_commit;
     refresh_fault := on_refresh |}.

Definition env : Env := make_env (fun _ => Ok reply) None None None.

Definition env_unbounded : Env :=
  make_env (fun _ => Ok unbounded_reply) None None None.

Definition env_llm_down : Env :=
  make_env (fun _ => Raise (PyError (py "503 Service Unavailable")))
           None None None.

Definition env_garbled : Env :=
  make_env (fun _ => Ok (py "Sure! Here is my analysis.")) None None None.

Definition env_commit_fails : Env :=
  make_env (fun _ => Ok reply) None (Some (py "connection reset")) None.

Definition env_refresh_fails : Env :=
  make_env (fun _ => Ok reply) None None (Some (py "connection reset")).

Definition entry (txt : string) : EntryCreateRequest.t :=
  {| EntryCreateRequest.text := py txt;
     EntryCreateRequest.entry_status := PUBLISHED |}.

Definition good_day : EntryCreateRequest.t := entry "Today was a good day.".

Definition body (txt : string) : EntryCreateRequest.raw :=
  {| EntryCreateRequest.raw_text := Some (py txt);
     EntryCreateRequest.raw_entry_status := None |}.

(** The state the endpoint starts in: a fresh session, one lookup done. *)
Definition entered : State :=
  {| session := Session_new engine; trace := [SessionOpen; SessionGet 7] |}.

End Demo.

(** ** The runs of a request

    What [post_analyze_entry] can end in: one case for each way through the
    authenticator, the validation of the body and the endpoint. *)

(** The state a request leaves: the session closed with nothing pending,
    and the effects between opening and closing it. *)
Definition finished (db : Database) (between : list Event) : State :=
  {| session := {| bind := db; new := []; closed := true |};
     trace := SessionOpen :: between ++ [SessionClose] |}.

(** The database after the INSERT of one object without a key. *)
Definition stored (engine : Database) (row : JournalEntry.t) : Database :=
  {| user_table := user_table engine;
     journal_entry_table :=
       journal_entry_table engine
       ++ [JournalEntry.with_id
             (next_journal_entry_id (journal_entry_table engine)) row] |}.

Definition lookup_user (engine : Database) (uid : Z) : option User.t :=
  List.find (fun u => User.user_id u =? uid) (user_table engine).

Inductive Outcome (env : Env) (engine : Database)
    (x_user_id : option Z) (body : EntryCreateRequest.raw)
    : result SimplifiedAnalysis.t -> State -> Prop :=
| no_identity :
    x_user_id = None ->
    Outcome env engine x_user_id body
      (Raise (HTTPException 401
                (py "User ID must be provided in the 'X-User-Id' header.")))
      (finished engine [])
| unknown_user (uid : Z) :
    x_user_id = Some uid ->
    lookup_user engine uid = None ->
    Outcome env engine x_user_id body
      (Raise (HTTPException 404
                (py "User with ID " ++ str_of_int uid ++ py " not found.")))
      (finished engine [SessionGet uid])
| invalid_body (uid : Z) (u : User.t) :
    x_user_id = Some uid ->
    lookup_user engine uid = Some u ->
    EntryCreateRequest.validate body = None ->
    Outcome env engine x_user_id body
      (Raise RequestValidationError)
      (finished engine [SessionGet uid])
| empty_text (uid : Z) (u : User.t) (entry_data : EntryCreateRequest.t) :
    x_user_id = Some uid ->
    lookup_user engine uid = Some u ->
    EntryCreateRequest.validate body = Some entry_data ->
    EntryCreateRequest.text entry_data = [] ->
    Outcome env engine x_user_id body
      (Raise (HTTPException 400 (py "Entry text cannot be empty.")))
      (finished engine [SessionGet uid])
| analysis_failed (uid : Z) (u : User.t) (entry_data : EntryCreateRequest.t)
    (cause : exc) :
    x_user_id = Some uid ->
    lookup_user engine uid = Some u ->
    EntryCreateRequest.validate body = Some entry_data ->
    EntryCreateRequest.text entry_data <> [] ->
    llm_reply env (prompt_invoke env (EntryCreateRequest.text entry_data))
      = Raise cause
    \/ (exists out,
          llm_reply env (prompt_invoke env (EntryCreateRequest.text entry_data))
            = Ok out
          /\ parser_parse env out = Raise cause) ->
    Outcome env engine x_user_id body
      (Raise (HTTPException 500
                (py "Failed to get a structured response from the AI: "
                 ++ exc_str cause)))
      (finished engine
         [SessionGet uid;
          LlmInvoke (prompt_invoke env (EntryCreateRequest.text entry_data))])
| not_saved (uid : Z) (u : User.t) (entry_data : EntryCreateRequest.t)
    (out : pystr) (a : SimplifiedAnalysis.t) (cause : pystr)
    (attempted : list Event) :
    x_user_id = Some uid ->
    lookup_user engine uid = Some u ->
    EntryCreateRequest.validate body = Some entry_data ->
    EntryCreateRequest.text entry_data <> [] ->
    llm_reply env (prompt_invoke env (EntryCreateRequest.text entry_data))
      = Ok out ->
    parser_parse env out = Ok a ->
    (add_fault env = Some cause /\ attempted = [SessionAdd])
    \/ (add_fault env = None /\ commit_fault env = Some cause
        /\ attempted = [SessionAdd; SessionCommit]) ->
    Outcome env engine x_user_id body
      (Raise (HTTPException 500
                (py "Failed to save the entry to the database: " ++ cause)))
      (finished engine
         (SessionGet uid
          :: LlmInvoke (prompt_invoke env (EntryCreateRequest.text entry_data))
          :: attempted ++ [SessionRollback]))
| saved_then_failed (uid : Z) (u : User.t) (entry_data : EntryCreateRequest.t)
    (out : pystr) (a : SimplifiedAnalysis.t) (cause : pystr) :
    x_user_id = Some uid ->
    lookup_user engine uid = Some u ->
    EntryCreateRequest.validate body = Some entry_data ->
    EntryCreateRequest.text entry_data <> [] ->
    llm_reply env (prompt_invoke env (EntryCreateRequest.text entry_data))
      = Ok out ->
    parser_parse env out = Ok a ->
    add_fault env = None -> commit_fault env = None ->
    refresh_fault env = Some cause ->
    Outcome env engine x_user_id body
      (Raise (HTTPException 500
                (py "Failed to save the entry to the database: " ++ cause)))
      (finished (stored engine (described_row env entry_data u a))
         [SessionGet uid;
          LlmInvoke (prompt_invoke env (EntryCreateRequest.text entry_data));
          SessionAdd; SessionCommit; SessionRefresh; SessionRollback])
| saved (uid : Z) (u : User.t) (entry_data : EntryCreateRequest.t)
    (out : pystr) (a : SimplifiedAnalysis.t) :
    x_user_id = Some uid ->
    lookup_user engine uid = Some u ->
    EntryCreateRequest.validate body = Some entry_data ->
    EntryCreateRequest.text entry_data <> [] ->
    llm_reply env (prompt_invoke env (EntryCreateRequest.text entry_data))
      = Ok out ->
    parser_parse env out = Ok a ->
    add_fault env = None -> commit_fault env = None ->
    refresh_fault env = None ->
    Outcome env engine x_user_id body
      (Ok a)
      (finished (stored engine (described_row env entry_data u a))
         [SessionGet uid;
          LlmInvoke (prompt_invoke env (EntryCreateRequest.text entry_data));
          SessionAdd; SessionCommit; SessionRefresh]).

(** The number of calls to the model in a trace. *)
Definition llm_calls (tr : list Event) : nat :=
  length (List.filter is_llm_invoke tr).

(** Integrity of the stored data: every journal entry has a key, no key is
    used twice, and every journal entry belongs to a stored user (the
    primary key and the foreign key of [journal_entry]). *)
Definition Database_ok (db : Database) : Prop :=
  NoDup (List.map JournalEntry.journal_entry_id (journal_entry_table db))
  /\ Forall (fun r =>
               JournalEntry.journal_entry_id r <> None
               /\ exists u, In u (user_table db)
                            /\ User.user_id u = JournalEntry.user_id r)
            (journal_entry_table db).

(** ** The prompt template ([src/main.py])

    The template is an f-string style template: [{name}] is replaced by the
    value of [name], [{{] and [}}] stand for single braces.  Replacement
    fields are plain names, as the two of this template are; conversions,
    format specifications and attribute or index access are outside this
    model. *)

Definition prompt_template_str : pystr := py "
You are a compassionate journaling assistant. Analyze the following journal entry.
Follow the instructions and format your response to match the format instructions, no matter what!
{format_instructions}
---
JOURNAL ENTRY:
{entry}
".

Definition open_brace : N := 123.
Definition close_brace : N := 125.

Definition then_more (prefix : pystr) (r : result pystr) : result pystr :=
  match r with
  | Ok s => Ok (prefix ++ s)
  | Raise e => Raise e
  end.

(** [template.format] with keyword arguments.  [field] is the name being read, reversed;
    [None] outside a replacement field.  The values put in are not scanned
    again. *)
Fixpoint format_scan (kwargs : gmap pystr pystr) (field : option pystr)
    (template : pystr) : result pystr :=
  match template with
  | [] =>
      match field with
      | None => Ok []
      | Some _ => Raise (PyError (py "expected '}' before end of string"))
      end
  | c :: rest =>
      match field with
      | Some name =>
          if (c =? close_brace)%N then
            match kwargs !! rev name with
            | Some v => then_more v (format_scan kwargs None rest)
            | None => Raise (PyError (py "'" ++ rev name ++ py "'"))
            end
          else if (c =? open_brace)%N then
            Raise (PyError (py "unexpected '{' in field name"))
          else format_scan kwargs (Some (c :: name)) rest
      | None =>
          if (c =? open_brace)%N then
            match rest with
            | [] => Raise (PyError (py "Single '{' encountered in format string"))
            | c' :: rest' =>
                if (c' =? open_brace)%N then
                  then_more [open_brace] (format_scan kwargs None rest')
                else format_scan kwargs (Some []) rest
            end
          else if (c =? close_brace)%N then
            match rest with
            | [] => Raise (PyError (py "Single '}' encountered in format string"))
            | c' :: rest' =>
                if (c' =? close_brace)%N then
                  then_more [close_brace] (format_scan kwargs None rest')
                else
                  Raise (PyError (py "Single '}' encountered in format string"))
            end
          else then_more [c] (format_scan kwargs None rest)
      end
  end.

(** [prompt.invoke({"entry": entry})] through the template: the partial
    variable and the input variable are the keyword arguments. *)
Definition PromptTemplate_invoke (env : Env) (entry : pystr) : result pystr :=
  format_scan
    (<[ py "entry" := entry ]>
       {[ py "format_instructions" := format_instructions env ]})
    None prompt_template_str.

(** ** Configuration read at import ([src/database.py], [src/main.py]) *)

(** [load_dotenv()]: the variables of the .env file are added to the
    environment of the process; one that is already set stays as it is. *)
Definition load_dotenv (dotenv environ : gmap pystr pystr) : gmap pystr pystr :=
  environ ∪ dotenv.

Definition os_getenv (environ : gmap pystr pystr) (key : pystr) : option pystr :=
  environ !! key.

(** [not v] for what [os.getenv] returns: unset, or set to nothing. *)
Definition unset (v : option pystr) : bool :=
  match v with
  | None => true
  | Some s => negb (truthy s)
  end.

Section Startup.
Context (create_engine : pystr -> result Database).

(** Importing [database]: the guard on [DATABASE_URL], then the engine. *)
Definition import_database (dotenv environ : gmap pystr pystr)
    : result (gmap pystr pystr * Database) :=
  let environ := load_dotenv dotenv environ in
  let DATABASE_URL := os_getenv environ (py "DATABASE_URL") in
  if unset DATABASE_URL then
    Raise (PyError (py "DATABASE_URL environment variable not set."))
  else
    match create_engine (default [] DATABASE_URL) with
    | Raise e => Raise e
    | Ok engine => Ok (environ, engine)
    end.

(** Importing [main]: it imports [database] first, loads the .env file
    again, and guards [GEMINI_API_KEY]. *)
Definition import_main (dotenv environ : gmap pystr pystr)
    : result (Database * pystr) :=
  match import_database dotenv environ with
  | Raise e => Raise e
  | Ok (environ, engine) =>
      let environ := load_dotenv dotenv environ in
      let GEMINI_API_KEY := os_getenv environ (py "GEMINI_API_KEY") in
      if unset GEMINI_API_KEY then
        Raise (PyError (py "GEMINI_API_KEY not found in environment variables. Please set it in your .env file."))
      else Ok (engine, default [] GEMINI_API_KEY)
  end.

End Startup.

(** * Properties *)

(** ** [str.split] *)

Section SplitFacts.

Lemma split_scan_length (s : pystr) :
  forall cur,
    length (split_scan cur s) =
    (count_word_starts (match cur with None => true | Some _ => false end) s
     + (match cur with None => 0 | Some _ => 1 end))%nat.
Proof.
  induction s as [|c rest IH]; intros [w|]; simpl; try reflexivity.
  - destruct (isspace c); simpl; rewrite IH; simpl; lia.
  - destruct (isspace c); simpl; rewrite IH; simpl; lia.
Qed.

(** [len(text.split())] is the number of whitespace-separated tokens. *)
Lemma split_length (s : pystr) :
  length (split s) = whitespace_token_count s.
Proof.
  unfold split, whitespace_token_count.
  rewrite split_scan_length. simpl. lia.
Qed.

Lemma rev_token (w : pystr) :
  w <> [] /\ Forall (fun c => isspace c = false) w ->
  rev w <> [] /\ Forall (fun c => isspace c = false) (rev w).
Proof.
  intros [Hne Hns]. split.
  - intros E. apply Hne. apply (f_equal (@rev N)) in E.
    rewrite rev_involutive in E. exact E.
  - apply List.Forall_rev. exact Hns.
Qed.

Lemma split_scan_tokens (s : pystr) :
  forall cur,
    (forall w, cur = Some w -> w <> [] /\ Forall (fun c => isspace c = false) w) ->
    Forall (fun tok => tok <> [] /\ Forall (fun c => isspace c = false) tok)
           (split_scan cur s).
Proof.
  induction s as [|c rest IH]; intros cur Hcur; simpl.
  - destruct cur as [w|]; [|constructor].
    constructor; [|constructor]. apply rev_token. auto.
  - destruct (isspace c) eqn:Hc.
    + destruct cur as [w|].
      * constructor; [apply rev_token; auto|].
        apply IH. intros ? [=].
      * apply IH. intros ? [=].
    + destruct cur as [w|]; apply IH; intros w' [= <-].
      * destruct (Hcur w eq_refl) as [_ Hns].
        split; [discriminate|]. constructor; assumption.
      * split; [discriminate|]. constructor; [assumption|constructor].
Qed.

(** Every token is non-empty and free of whitespace. *)
Lemma split_tokens (s : pystr) :
  Forall (fun tok => tok <> [] /\ Forall (fun c => isspace c = false) tok)
         (split s).
Proof. apply split_scan_tokens. intros ? [=]. Qed.

(** Text made of whitespace only has no token. *)
Lemma split_whitespace_only (s : pystr) :
  Forall (fun c => isspace c = true) s -> split s = [].
Proof.
  unfold split. induction 1 as [|c rest Hc _ IH]; simpl.
  - reflexivity.
  - rewrite Hc. exact IH.
Qed.

End SplitFacts.

(** ** The paths through [analyze_and_save_entry] *)

Ltac run_request :=
  unfold post_analyze_entry, get_session, analyze_and_save_entry,
    get_current_user, try_except, llm_invoke, Session_get, Session_add,
    Session_commit, Session_refresh, Session_rollback, lift_result, emit,
    modify_session, get_session_state, raise, mbind, M_bind, bind_M, mret,
    M_ret, ret;
  simpl.

Ltac tidy_trace := rewrite <- ?app_assoc; simpl.

Section Paths.
Context (env : Env) (entry_data : EntryCreateRequest.t) (current_user : User.t).

Let txt := EntryCreateRequest.text entry_data.
Let p := prompt_invoke env txt.

Lemma truthy_nonempty (s : pystr) : s <> [] -> truthy s = true.
Proof. destruct s; [congruence | reflexivity]. Qed.

Lemma path_empty_text (st : State) :
  txt = [] ->
  analyze_and_save_entry env entry_data current_user st =
  (Raise (HTTPException 400 (py "Entry text cannot be empty.")), st).
Proof.
  subst txt. intros E. unfold analyze_and_save_entry. rewrite E. reflexivity.
Qed.

Lemma path_llm_raises (st : State) (e : exc) :
  txt <> [] ->
  llm_reply env p = Raise e ->
  analyze_and_save_entry env entry_data current_user st =
  (Raise (HTTPException 500
            (py "Failed to get a structured response from the AI: "
             ++ exc_str e)),
   {| session := session st; trace := trace st ++ [LlmInvoke p] |}).
Proof.
  subst p txt. intros Hne Hllm. run_request.
  rewrite (truthy_nonempty _ Hne). simpl. rewrite Hllm. reflexivity.
Qed.

Lemma path_parse_raises (st : State) (out : pystr) (e : exc) :
  txt <> [] ->
  llm_reply env p = Ok out ->
  parser_parse env out = Raise e ->
  analyze_and_save_entry env entry_data current_user st =
  (Raise (HTTPException 500
            (py "Failed to get a structured response from the AI: "
             ++ exc_str e)),
   {| session := session st; trace := trace st ++ [LlmInvoke p] |}).
Proof.
  subst p txt. intros Hne Hllm Hparse. run_request.
  rewrite (truthy_nonempty _ Hne). simpl. rewrite Hllm, Hparse. reflexivity.
Qed.

Section Analysed.
Context (out : pystr) (a : SimplifiedAnalysis.t).
Hypothesis text_nonempty : txt <> [].
Hypothesis llm_ok : llm_reply env p = Ok out.
Hypothesis parse_ok : parser_parse env out = Ok a.

Let row := described_row env entry_data current_user a.

Lemma path_add_raises (st : State) (cause : pystr) :
  add_fault env = Some cause ->
  analyze_and_save_entry env entry_data current_user st =
  (Raise (HTTPException 500
            (py "Failed to save the entry to the database: " ++ cause)),
   {| session := Session_expunge (session st);
      trace := trace st ++ [LlmInvoke p; SessionAdd; SessionRollback] |}).
Proof.
  subst p txt row. intros Hadd. run_request.
  rewrite (truthy_nonempty _ text_nonempty). simpl.
  rewrite llm_ok, parse_ok, Hadd. simpl. tidy_trace. reflexivity.
Qed.

Lemma path_commit_raises (st : State) (cause : pystr) :
  add_fault env = None ->
  commit_fault env = Some cause ->
  analyze_and_save_entry env entry_data current_user st =
  (Raise (HTTPException 500
            (py "Failed to save the entry to the database: " ++ cause)),
   {| session := Session_expunge (Session_with_pending (session st) row);
      trace := trace st
               ++ [LlmInvoke p; SessionAdd; SessionCommit; SessionRollback] |}).
Proof.
  subst p txt row. intros Hadd Hcommit. run_request.
  rewrite (truthy_nonempty _ text_nonempty). simpl.
  rewrite llm_ok, parse_ok, Hadd. simpl. rewrite Hcommit. simpl.
  tidy_trace. reflexivity.
Qed.

Lemma path_refresh_raises (st : State) (cause : pystr) :
  add_fault env = None ->
  commit_fault env = None ->
  refresh_fault env = Some cause ->
  analyze_and_save_entry env entry_data current_user st =
  (Raise (HTTPException 500
            (py "Failed to save the entry to the database: " ++ cause)),
   {| session :=
        Session_expunge
          (Session_flush (Session_with_pending (session st) row));
      trace := trace st
               ++ [LlmInvoke p; SessionAdd; SessionCommit; SessionRefresh;
                   SessionRollback] |}).
Proof.
  subst p txt row. intros Hadd Hcommit Hrefresh. run_request.
  rewrite (truthy_nonempty _ text_nonempty). simpl.
  rewrite llm_ok, parse_ok, Hadd. simpl. rewrite Hcommit. simpl.
  rewrite Hrefresh. simpl. tidy_trace. reflexivity.
Qed.

Lemma path_success (st : State) :
  add_fault env = None ->
  commit_fault env = None ->
  refresh_fault env = None ->
  analyze_and_save_entry env entry_data current_user st =
  (Ok a,
   {| session := Session_flush (Session_with_pending (session st) row);
      trace := trace st
               ++ [LlmInvoke p; SessionAdd; SessionCommit; SessionRefresh] |}).
Proof.
  subst p txt row. intros Hadd Hcommit Hrefresh. run_request.
  rewrite (truthy_nonempty _ text_nonempty). simpl.
  rewrite llm_ok, parse_ok, Hadd. simpl. rewrite Hcommit. simpl.
  rewrite Hrefresh. simpl. tidy_trace. reflexivity.
Qed.

End Analysed.

(** A call returns normally on one path only. *)
Lemma analyze_and_save_entry_Ok (st st' : State) (a : SimplifiedAnalysis.t) :
  analyze_and_save_entry env entry_data current_user st = (Ok a, st') ->
  txt <> [] /\
  (exists out, llm_reply env p = Ok out /\ parser_parse env out = Ok a) /\
  add_fault env = None /\ commit_fault env = None /\
  refresh_fault env = None /\
  st' = {| session :=
             Session_flush
               (Session_with_pending (session st)
                  (described_row env entry_data current_user a));
           trace := trace st
                    ++ [LlmInvoke p; SessionAdd; SessionCommit;
                        SessionRefresh] |}.
Proof.
  intros Hrun.
  destruct (decide (txt = [])) as [Hempty|Hne].
  { rewrite (path_empty_text st Hempty) in Hrun. discriminate. }
  destruct (llm_reply env p) as [out|e] eqn:Hllm.
  2:{ rewrite (path_llm_raises st e Hne Hllm) in Hrun. discriminate. }
  destruct (parser_parse env out) as [a0|e] eqn:Hparse.
  2:{ rewrite (path_parse_raises st out e Hne Hllm Hparse) in Hrun.
      discriminate. }
  destruct (add_fault env) as [c|] eqn:Hadd.
  { rewrite (path_add_raises out a0 Hne Hllm Hparse st c Hadd) in Hrun.
    discriminate. }
  destruct (commit_fault env) as [c|] eqn:Hcommit.
  { rewrite (path_commit_raises out a0 Hne Hllm Hparse st c Hadd Hcommit)
      in Hrun. discriminate. }
  destruct (refresh_fault env) as [c|] eqn:Hrefresh.
  { rewrite (path_refresh_raises out a0 Hne Hllm Hparse st c Hadd Hcommit
               Hrefresh) in Hrun. discriminate. }
  rewrite (path_success out a0 Hne Hllm Hparse st Hadd Hcommit Hrefresh)
    in Hrun.
  injection Hrun as -> <-.
  split; [exact Hne|]. split; [exists out; split; [reflexivity|assumption]|].
  repeat split; reflexivity.
Qed.

End Paths.

(** ** Committing one row from a fresh session *)

Section Storage.

Lemma largest_key_bound (rows : list JournalEntry.t) (r : JournalEntry.t) :
  In r rows ->
  default 0 (JournalEntry.journal_entry_id r) < next_journal_entry_id rows.
Proof.
  unfold next_journal_entry_id.
  induction rows as [|r0 rows IH]; simpl; [tauto|].
  intros [->|Hin]; [lia|]. specialize (IH Hin). lia.
Qed.

(** The key handed out is used by no row of the table. *)
Lemma next_journal_entry_id_unused (rows : list JournalEntry.t) :
  Forall (fun old =>
            JournalEntry.journal_entry_id old
            <> Some (next_journal_entry_id rows)) rows.
Proof.
  apply List.Forall_forall. intros r Hin E.
  pose proof (largest_key_bound rows r Hin) as Hlt.
  rewrite E in Hlt. simpl in Hlt. lia.
Qed.

Lemma flush_one_row (s : Session) (row : JournalEntry.t) :
  new s = [] ->
  JournalEntry.journal_entry_id row = None ->
  journal_entry_table (bind (Session_flush (Session_with_pending s row))) =
  journal_entry_table (bind s)
  ++ [JournalEntry.with_id
        (next_journal_entry_id (journal_entry_table (bind s))) row].
Proof.
  intros Hnew Hid. simpl. rewrite Hnew. simpl.
  unfold insert_journal_entry. rewrite Hid. reflexivity.
Qed.

End Storage.

(** What a successful call leaves behind, when the session it was given had
    nothing pending. *)
Lemma successful_call_inserts
    (env : Env) (entry_data : EntryCreateRequest.t) (current_user : User.t)
    (st st' : State) (a : SimplifiedAnalysis.t) :
  new (session st) = [] ->
  analyze_and_save_entry env entry_data current_user st = (Ok a, st') ->
  rows_of st' =
    rows_of st
    ++ [JournalEntry.with_id (next_journal_entry_id (rows_of st))
          (described_row env entry_data current_user a)]
  /\ user_table (bind (session st')) = user_table (bind (session st))
  /\ new (session st') = []
  /\ closed (session st') = closed (session st).
Proof.
  intros Hnew Hrun.
  apply analyze_and_save_entry_Ok in Hrun as (_ & _ & _ & _ & _ & ->).
  unfold rows_of. cbn [session].
  rewrite flush_one_row by (assumption || reflexivity).
  repeat split; reflexivity.
Qed.

(** C1. A successful call on non-empty text inserts exactly one row: the
    table afterwards is the table before followed by one new row, owned by
    the authenticated user, whose [word_count] is the number of
    whitespace-separated tokens of the text; the user table is untouched;
    the key of the new row is used by no earlier row, so that a second
    identical successful call appends a second row distinct from the
    first. *)
Theorem one_row_per_successful_call
    (env : Env) (entry_data : EntryCreateRequest.t) (current_user : User.t)
    (st st' : State) (a : SimplifiedAnalysis.t) :
  new (session st) = [] ->
  analyze_and_save_entry env entry_data current_user st = (Ok a, st') ->
  EntryCreateRequest.text entry_data <> [] /\
  exists row,
    rows_of st' = rows_of st ++ [row]
    /\ user_table (bind (session st')) = user_table (bind (session st))
    /\ JournalEntry.user_id row = User.user_id current_user
    /\ JournalEntry.word_count row =
       Z.of_nat (whitespace_token_count (EntryCreateRequest.text entry_data))
    /\ Forall (fun old => JournalEntry.journal_entry_id old
                          <> JournalEntry.journal_entry_id row) (rows_of st)
    /\ forall (env2 : Env) (st2 st2' : State) (a2 : SimplifiedAnalysis.t),
         new (session st2) = [] ->
         bind (session st2) = bind (session st') ->
         analyze_and_save_entry env2 entry_data current_user st2 = (Ok a2, st2') ->
         exists row2,
           rows_of st2' = rows_of st ++ [row; row2] /\ row2 <> row.
Proof.
  intros Hnew Hrun.
  split; [exact (proj1 (analyze_and_save_entry_Ok _ _ _ _ _ _ Hrun))|].
  destruct (successful_call_inserts _ _ _ _ _ _ Hnew Hrun)
    as (Hrows & Husers & _ & _).
  set (row := JournalEntry.with_id (next_journal_entry_id (rows_of st))
                (described_row env entry_data current_user a)) in *.
  exists row. split; [exact Hrows|]. split; [exact Husers|].
  split; [reflexivity|]. split; [simpl; rewrite split_length; reflexivity|].
  split; [apply next_journal_entry_id_unused|].
  intros env2 st2 st2' a2 Hnew2 Hbind Hrun2.
  destruct (successful_call_inserts _ _ _ _ _ _ Hnew2 Hrun2)
    as (Hrows2 & _ & _ & _).
  assert (Hsame : rows_of st2 = rows_of st ++ [row])
    by (unfold rows_of in *; now rewrite Hbind).
  eexists. split.
  - rewrite Hrows2, Hsame, <- app_assoc. reflexivity.
  - intros E. apply (f_equal JournalEntry.journal_entry_id) in E.
    pose proof (next_journal_entry_id_unused (rows_of st2)) as Hfresh.
    rewrite List.Forall_forall in Hfresh.
    apply (Hfresh row).
    + rewrite Hsame. apply in_or_app. right. left. reflexivity.
    + rewrite Hsame. symmetry. exact E.
Qed.

(** C2. When the analysis has succeeded and saving the row fails (the add
    or the commit raises), the call raises one error, the persistence
    failure carrying the cause; the rollback is the last thing done before
    it is raised; the database is as it was, so the row count is unchanged,
    nothing stays pending, and no analysis is returned. *)
Theorem persistence_failure_rolls_back
    (env : Env) (entry_data : EntryCreateRequest.t) (current_user : User.t)
    (st : State) (out : pystr) (a : SimplifiedAnalysis.t) (cause : pystr) :
  EntryCreateRequest.text entry_data <> [] ->
  llm_reply env (prompt_invoke env (EntryCreateRequest.text entry_data)) = Ok out ->
  parser_parse env out = Ok a ->
  add_fault env = Some cause
  \/ (add_fault env = None /\ commit_fault env = Some cause) ->
  exists e st',
    analyze_and_save_entry env entry_data current_user st = (Raise e, st')
    /\ PersistenceFailure (PyError cause) e
    /\ status_of (@Raise SimplifiedAnalysis.t e) = 500
    /\ (exists earlier, trace st' = trace st ++ earlier ++ [SessionRollback])
    /\ bind (session st') = bind (session st)
    /\ length (rows_of st') = length (rows_of st)
    /\ new (session st') = []
    /\ forall a', fst (analyze_and_save_entry env entry_data current_user st)
                  <> Ok a'.
Proof.
  intros Hne Hllm Hparse [Hadd | [Hadd Hcommit]].
  - pose proof (path_add_raises env entry_data current_user out a
                  Hne Hllm Hparse st cause Hadd) as Hrun.
    eexists _, _. split; [exact Hrun|]. rewrite Hrun.
    repeat split; try discriminate.
    exists [LlmInvoke (prompt_invoke env (EntryCreateRequest.text entry_data));
            SessionAdd].
    reflexivity.
  - pose proof (path_commit_raises env entry_data current_user out a
                  Hne Hllm Hparse st cause Hadd Hcommit) as Hrun.
    eexists _, _. split; [exact Hrun|]. rewrite Hrun.
    repeat split; try discriminate.
    exists [LlmInvoke (prompt_invoke env (EntryCreateRequest.text entry_data));
            SessionAdd; SessionCommit].
    reflexivity.
Qed.

(** The read-back after the commit sits in the same [try]: when it raises,
    the same error is raised although the row has been committed. *)
Lemma refresh_failure_keeps_row
    (env : Env) (entry_data : EntryCreateRequest.t) (current_user : User.t)
    (st : State) (out : pystr) (a : SimplifiedAnalysis.t) (cause : pystr) :
  new (session st) = [] ->
  EntryCreateRequest.text entry_data <> [] ->
  llm_reply env (prompt_invoke env (EntryCreateRequest.text entry_data)) = Ok out ->
  parser_parse env out = Ok a ->
  add_fault env = None -> commit_fault env = None ->
  refresh_fault env = Some cause ->
  exists e st',
    analyze_and_save_entry env entry_data current_user st = (Raise e, st')
    /\ PersistenceFailure (PyError cause) e
    /\ length (rows_of st') = S (length (rows_of st)).
Proof.
  intros Hnew Hne Hllm Hparse Hadd Hcommit Hrefresh.
  eexists _, _. split.
  - apply (path_refresh_raises env entry_data current_user out a
             Hne Hllm Hparse st cause Hadd Hcommit Hrefresh).
  - split; [reflexivity|].
    unfold rows_of. cbn [session Session_expunge bind].
    rewrite flush_one_row by (assumption || reflexivity).
    rewrite length_app. simpl. lia.
Qed.

(** C3. When the text is not empty and the analysis step fails (the model
    call raises, or its output does not parse), the call raises the
    upstream analysis failure carrying the cause; the model has been
    invoked once and nothing else was done; the session, and with it the
    table of journal entries, is as it was. *)
Theorem upstream_failure_creates_nothing
    (env : Env) (entry_data : EntryCreateRequest.t) (current_user : User.t)
    (st : State) (cause : exc) :
  EntryCreateRequest.text entry_data <> [] ->
  llm_reply env (prompt_invoke env (EntryCreateRequest.text entry_data))
    = Raise cause
  \/ (exists out,
        llm_reply env (prompt_invoke env (EntryCreateRequest.text entry_data))
          = Ok out
        /\ parser_parse env out = Raise cause) ->
  exists e st',
    analyze_and_save_entry env entry_data current_user st = (Raise e, st')
    /\ UpstreamAnalysisFailure cause e
    /\ status_of (@Raise SimplifiedAnalysis.t e) = 500
    /\ trace st' =
       trace st
       ++ [LlmInvoke (prompt_invoke env (EntryCreateRequest.text entry_data))]
    /\ session st' = session st
    /\ rows_of st' = rows_of st.
Proof.
  intros Hne [Hllm | (out & Hllm & Hparse)].
  - eexists _, _. split; [apply (path_llm_raises _ _ _ st cause Hne Hllm)|].
    repeat split.
  - eexists _, _.
    split; [apply (path_parse_raises _ _ _ st out cause Hne Hllm Hparse)|].
    repeat split.
Qed.

(** C4. Empty text is refused with status 400 whatever the environment, the
    status field, the user and the state; the state afterwards is the state
    before, so the model has not been invoked and no row exists that did
    not exist before. *)
Theorem empty_text_is_bad_request
    (env : Env) (entry_status : EntryStatus) (current_user : User.t)
    (st : State) :
  let entry_data :=
    {| EntryCreateRequest.text := py "";
       EntryCreateRequest.entry_status := entry_status |} in
  exists e,
    analyze_and_save_entry env entry_data current_user st = (Raise e, st)
    /\ BadRequest e
    /\ status_of (@Raise SimplifiedAnalysis.t e) = 400
    /\ e = HTTPException 400 (py "Entry text cannot be empty.").
Proof.
  intros entry_data. eexists. split; [reflexivity|].
  split; [eexists; reflexivity|]. split; reflexivity.
Qed.

(** ** The authenticator *)

Lemma find_user_none (users : list User.t) (uid : Z) :
  Forall (fun u => User.user_id u <> uid) users ->
  List.find (fun u => User.user_id u =? uid) users = None.
Proof.
  induction 1 as [|u users Hu _ IH]; simpl; [reflexivity|].
  destruct (Z.eqb_spec (User.user_id u) uid); [contradiction | exact IH].
Qed.

Lemma find_user_some (users : list User.t) (uid : Z) (u : User.t) :
  In u users -> User.user_id u = uid ->
  exists found,
    List.find (fun u => User.user_id u =? uid) users = Some found
    /\ In found users /\ User.user_id found = uid.
Proof.
  intros Hin Hid.
  destruct (List.find (fun u => User.user_id u =? uid) users) as [found|] eqn:E.
  - exists found. split; [reflexivity|].
    apply List.find_some in E as [Hfound Heq]. split; [exact Hfound | lia].
  - exfalso. apply (List.find_none _ _ E) in Hin. lia.
Qed.

(** C5. Without an identity the authenticator raises 401 and leaves the
    state as it was: no lookup is made.  With an identity that is the key
    of no user row it raises 404 after one lookup, and the whole request
    then ends with that error and the table of journal entries unchanged.
    With an identity that is the key of a user row it returns a row of the
    user table with that key.  In every case the session afterwards is the
    session before. *)
Theorem get_current_user_outcomes (env : Env) (st : State) :
  (exists e,
     get_current_user None st = (Raise e, st) /\ Unauthenticated e
     /\ status_of (@Raise User.t e) = 401)
  /\ (forall uid : Z,
        Forall (fun u => User.user_id u <> uid) (user_table (bind (session st))) ->
        exists e,
          get_current_user (Some uid) st =
            (Raise e, {| session := session st;
                         trace := trace st ++ [SessionGet uid] |})
          /\ NotFound e /\ status_of (@Raise User.t e) = 404)
  /\ (forall (uid : Z) (engine : Database) (body : EntryCreateRequest.raw),
        Forall (fun u => User.user_id u <> uid) (user_table engine) ->
        exists e st',
          post_analyze_entry env engine (Some uid) body = (Raise e, st')
          /\ NotFound e
          /\ rows_of st' = journal_entry_table engine
          /\ trace st' = [SessionOpen; SessionGet uid; SessionClose])
  /\ (forall (uid : Z) (u : User.t),
        In u (user_table (bind (session st))) -> User.user_id u = uid ->
        exists found,
          get_current_user (Some uid) st =
            (Ok found, {| session := session st;
                          trace := trace st ++ [SessionGet uid] |})
          /\ In found (user_table (bind (session st)))
          /\ User.user_id found = uid)
  /\ (forall x_user_id : option Z,
        session (snd (get_current_user x_user_id st)) = session st).
Proof.
  split; [|split; [|split; [|split]]].
  - eexists. split; [reflexivity|]. split; [eexists; reflexivity | reflexivity].
  - intros uid Hnone. eexists. run_request.
    rewrite (find_user_none _ _ Hnone).
    split; [reflexivity|]. split; [eexists; reflexivity | reflexivity].
  - intros uid engine body Hnone. eexists _, _. run_request.
    rewrite (find_user_none _ _ Hnone). simpl.
    split; [reflexivity|]. split; [eexists; reflexivity|].
    split; reflexivity.
  - intros uid u Hin Hid.
    destruct (find_user_some _ _ _ Hin Hid) as (found & Hfind & Hfound & Hkey).
    exists found. run_request. rewrite Hfind.
    split; [reflexivity|]. split; assumption.
  - intros [uid|]; [|reflexivity]. run_request.
    destruct (List.find _ _); reflexivity.
Qed.

(** ** What every call on non-empty text does *)

Lemma nonempty_text_outcomes
    (env : Env) (entry_data : EntryCreateRequest.t) (current_user : User.t)
    (st : State) :
  EntryCreateRequest.text entry_data <> [] ->
  exists r st' later,
    analyze_and_save_entry env entry_data current_user st = (r, st')
    /\ trace st' =
       trace st
       ++ LlmInvoke (prompt_invoke env (EntryCreateRequest.text entry_data))
          :: later
    /\ Forall (fun ev => is_open_or_close ev = false) later
    /\ ((exists a, r = Ok a) \/ (exists d, r = Raise (HTTPException 500 d))).
Proof.
  intros Hne.
  set (p := prompt_invoke env (EntryCreateRequest.text entry_data)).
  destruct (llm_reply env p) as [out|e] eqn:Hllm.
  2:{ eexists _, _, []. rewrite (path_llm_raises _ _ _ st e Hne Hllm).
      repeat split; [constructor | right; eexists; reflexivity]. }
  destruct (parser_parse env out) as [a|e] eqn:Hparse.
  2:{ eexists _, _, []. rewrite (path_parse_raises _ _ _ st out e Hne Hllm Hparse).
      repeat split; [constructor | right; eexists; reflexivity]. }
  destruct (add_fault env) as [c|] eqn:Hadd.
  { eexists _, _, _.
    rewrite (path_add_raises _ _ _ out a Hne Hllm Hparse st c Hadd).
    repeat split; [repeat constructor | right; eexists; reflexivity]. }
  destruct (commit_fault env) as [c|] eqn:Hcommit.
  { eexists _, _, _.
    rewrite (path_commit_raises _ _ _ out a Hne Hllm Hparse st c Hadd Hcommit).
    repeat split; [repeat constructor | right; eexists; reflexivity]. }
  destruct (refresh_fault env) as [c|] eqn:Hrefresh.
  { eexists _, _, _.
    rewrite (path_refresh_raises _ _ _ out a Hne Hllm Hparse st c Hadd Hcommit
               Hrefresh).
    repeat split; [repeat constructor | right; eexists; reflexivity]. }
  eexists _, _, _.
  rewrite (path_success _ _ _ out a Hne Hllm Hparse st Hadd Hcommit Hrefresh).
  repeat split; [repeat constructor | left; eexists; reflexivity].
Qed.

(** C6. The row a successful call inserts carries the date of the day, the
    text as given, the score the parser returned, the status as given, and
    as suggestion a map of exactly one key, [counsel], holding the counsel
    the parser returned. *)
Theorem saved_row_columns
    (env : Env) (entry_data : EntryCreateRequest.t) (current_user : User.t)
    (st st' : State) (a : SimplifiedAnalysis.t) :
  new (session st) = [] ->
  analyze_and_save_entry env entry_data current_user st = (Ok a, st') ->
  exists (out : pystr) (row : JournalEntry.t) (suggestion : gmap pystr py_any),
    llm_reply env (prompt_invoke env (EntryCreateRequest.text entry_data)) = Ok out
    /\ parser_parse env out = Ok a
    /\ rows_of st' = rows_of st ++ [row]
    /\ JournalEntry.entry_date row = today env
    /\ JournalEntry.text row = Some (EntryCreateRequest.text entry_data)
    /\ JournalEntry.sentiment_score row
       = Some (SimplifiedAnalysis.sentimentScore a)
    /\ JournalEntry.entry_status row
       = Some (EntryCreateRequest.entry_status entry_data)
    /\ JournalEntry.ai_suggestion row = Some suggestion
    /\ suggestion !! py "counsel" = Some (AnyStr (SimplifiedAnalysis.counsel a))
    /\ size suggestion = 1%nat
    /\ suggestion = {[ py "counsel" := AnyStr (SimplifiedAnalysis.counsel a) ]}.
Proof.
  intros Hnew Hrun.
  destruct (successful_call_inserts _ _ _ _ _ _ Hnew Hrun) as (Hrows & _).
  apply analyze_and_save_entry_Ok in Hrun
    as (_ & (out & Hllm & Hparse) & _).
  exists out. eexists. eexists.
  split; [exact Hllm|]. split; [exact Hparse|]. split; [exact Hrows|].
  repeat split;
    first [apply lookup_singleton_eq | apply map_size_singleton | reflexivity].
Qed.

(** ** Whole requests *)

Ltac enter_request :=
  unfold post_analyze_entry, get_session, get_current_user, Session_get,
    emit, get_session_state, raise, mbind, M_bind, bind_M, mret, M_ret, ret;
  simpl.

Lemma post_analyze_entry_success
    (env : Env) (engine : Database) (uid : Z) (u : User.t)
    (body : EntryCreateRequest.raw) (entry_data : EntryCreateRequest.t)
    (out : pystr) (a : SimplifiedAnalysis.t) :
  List.find (fun u => User.user_id u =? uid) (user_table engine) = Some u ->
  EntryCreateRequest.validate body = Some entry_data ->
  EntryCreateRequest.text entry_data <> [] ->
  llm_reply env (prompt_invoke env (EntryCreateRequest.text entry_data)) = Ok out ->
  parser_parse env out = Ok a ->
  add_fault env = None -> commit_fault env = None -> refresh_fault env = None ->
  post_analyze_entry env engine (Some uid) body =
  (Ok a,
   {| session :=
        Session_close
          (Session_flush
             (Session_with_pending (Session_new engine)
                (described_row env entry_data u a)));
      trace :=
        [SessionOpen; SessionGet uid;
         LlmInvoke (prompt_invoke env (EntryCreateRequest.text entry_data));
         SessionAdd; SessionCommit; SessionRefresh; SessionClose] |}).
Proof.
  intros Hfind Hvalid Hne Hllm Hparse Hadd Hcommit Hrefresh.
  enter_request. rewrite Hfind, Hvalid.
  rewrite (path_success env entry_data u out a Hne Hllm Hparse _
             Hadd Hcommit Hrefresh).
  reflexivity.
Qed.

(** C7. User 7 exists and submits "Today was a good day." with no status;
    the model answers, the answer parses to [a], and storage works.  Then
    the response is 200 with exactly [a], so a score within -10..10 and a
    non-empty counsel are returned whenever the parsed answer has them; one
    row is added, with [word_count] 5 and status [published].  Nothing
    checks the answer: a parsed score of 42 with empty counsel is returned
    with 200 just the same. *)
Theorem good_day_scenario
    (env : Env) (engine : Database) (u : User.t)
    (out : pystr) (a : SimplifiedAnalysis.t) :
  In u (user_table engine) -> User.user_id u = 7 ->
  llm_reply env (prompt_invoke env (py "Today was a good day.")) = Ok out ->
  parser_parse env out = Ok a ->
  add_fault env = None -> commit_fault env = None -> refresh_fault env = None ->
  let body :=
    {| EntryCreateRequest.raw_text := Some (py "Today was a good day.");
       EntryCreateRequest.raw_entry_status := None |} in
  (exists st' row,
     post_analyze_entry env engine (Some 7) body = (Ok a, st')
     /\ status_of (Ok a) = 200
     /\ (-10 <= SimplifiedAnalysis.sentimentScore a <= 10 ->
         SimplifiedAnalysis.counsel a <> [] ->
         exists response,
           fst (post_analyze_entry env engine (Some 7) body) = Ok response
           /\ -10 <= SimplifiedAnalysis.sentimentScore response <= 10
           /\ SimplifiedAnalysis.counsel response <> [])
     /\ rows_of st' = journal_entry_table engine ++ [row]
     /\ JournalEntry.user_id row = 7
     /\ JournalEntry.word_count row = 5
     /\ JournalEntry.entry_status row = Some PUBLISHED
     /\ EntryStatus_value PUBLISHED = py "published"
     /\ JournalEntry.sentiment_score row
        = Some (SimplifiedAnalysis.sentimentScore a))
  /\ (exists st',
        post_analyze_entry Demo.env_unbounded Demo.engine (Some 7) body
        = (Ok Demo.unbounded_analysis, st')
        /\ SimplifiedAnalysis.sentimentScore Demo.unbounded_analysis = 42
        /\ SimplifiedAnalysis.counsel Demo.unbounded_analysis = []).
Proof.
  intros Hin Hkey Hllm Hparse Hadd Hcommit Hrefresh body.
  destruct (find_user_some _ _ _ Hin Hkey) as (found & Hfind & _ & Hfound).
  assert (Hrun := post_analyze_entry_success env engine 7 found body
                    {| EntryCreateRequest.text := py "Today was a good day.";
                       EntryCreateRequest.entry_status := PUBLISHED |}
                    out a Hfind eq_refl ltac:(discriminate)
                    Hllm Hparse Hadd Hcommit Hrefresh).
  split.
  - eexists _, _. split; [exact Hrun|]. split; [reflexivity|].
    split.
    { intros Hscore Hcounsel. exists a. rewrite Hrun. auto. }
    unfold rows_of. cbn [session Session_close bind].
    rewrite flush_one_row by reflexivity.
    split; [reflexivity|]. split; [exact Hfound|].
    repeat split.
  - eexists. split; [|split; reflexivity].
    apply (post_analyze_entry_success Demo.env_unbounded Demo.engine 7
             Demo.user7 body
             {| EntryCreateRequest.text := py "Today was a good day.";
                EntryCreateRequest.entry_status := PUBLISHED |}
             Demo.unbounded_reply);
      solve [reflexivity | discriminate].
Qed.

(** C8. A body with text and no status is accepted with status PUBLISHED.
    A body with text and a status is accepted only if the status is one of
    the three values draft, published, archived, and the accepted request
    then carries the member with that value; every member is one of DRAFT,
    PUBLISHED, ARCHIVED. *)
Theorem entry_status_default_and_domain (txt : pystr) :
  EntryCreateRequest.validate
    {| EntryCreateRequest.raw_text := Some txt;
       EntryCreateRequest.raw_entry_status := None |}
  = Some {| EntryCreateRequest.text := txt;
            EntryCreateRequest.entry_status := PUBLISHED |}
  /\ (forall (v : pystr) (accepted : EntryCreateRequest.t),
        EntryCreateRequest.validate
          {| EntryCreateRequest.raw_text := Some txt;
             EntryCreateRequest.raw_entry_status := Some v |}
        = Some accepted ->
        In v [py "draft"; py "published"; py "archived"]
        /\ EntryStatus_value (EntryCreateRequest.entry_status accepted) = v
        /\ EntryCreateRequest.text accepted = txt)
  /\ (forall s : EntryStatus,
        In s [DRAFT; PUBLISHED; ARCHIVED]
        /\ EntryCreateRequest.validate
             {| EntryCreateRequest.raw_text := Some txt;
                EntryCreateRequest.raw_entry_status := Some (EntryStatus_value s) |}
           = Some {| EntryCreateRequest.text := txt;
                     EntryCreateRequest.entry_status := s |}).
Proof.
  split; [reflexivity|]. split.
  - intros v accepted. unfold EntryCreateRequest.validate. simpl.
    destruct (EntryStatus_of_value v) as [s|] eqn:Hs; [|discriminate].
    intros [= <-]. simpl.
    unfold EntryStatus_of_value in Hs.
    apply List.find_some in Hs as [_ Hv].
    apply bool_decide_eq_true in Hv. subst v.
    split; [|split; reflexivity].
    destruct s; simpl; auto.
  - intros s. split; [destruct s; simpl; auto|].
    destruct s; reflexivity.
Qed.

(** ** The session provider *)

(** Every request opens one session first and closes it last, whatever
    happens in between. *)
Lemma post_analyze_entry_brackets
    (env : Env) (engine : Database) (x_user_id : option Z)
    (body : EntryCreateRequest.raw) :
  exists r st between,
    post_analyze_entry env engine x_user_id body = (r, st)
    /\ closed (session st) = true
    /\ new (session st) = []
    /\ trace st = SessionOpen :: between ++ [SessionClose]
    /\ Forall (fun ev => is_open_or_close ev = false) between.
Proof.
  destruct x_user_id as [uid|].
  2:{ eexists _, _, []. enter_request. repeat split. constructor. }
  enter_request.
  destruct (List.find _ (user_table engine)) as [u|].
  2:{ eexists _, _, [_]. simpl. repeat split. repeat constructor. }
  destruct (EntryCreateRequest.validate body) as [entry_data|].
  2:{ eexists _, _, [_]. simpl. repeat split. repeat constructor. }
  destruct (decide (EntryCreateRequest.text entry_data = [])) as [Hempty|Hne].
  { rewrite (path_empty_text env entry_data u _ Hempty).
    eexists _, _, [_]. simpl. repeat split. repeat constructor. }
  destruct (nonempty_text_outcomes env entry_data u
              {| session := Session_new engine;
                 trace := [SessionOpen; SessionGet uid] |} Hne)
    as (r & st' & later & Hrun & Htrace & Hlater & _).
  rewrite Hrun.
  exists r, {| session := Session_close (session st');
               trace := trace st' ++ [SessionClose] |},
         (SessionGet uid
          :: LlmInvoke (prompt_invoke env (EntryCreateRequest.text entry_data))
          :: later).
  split; [destruct r; reflexivity|].
  repeat split.
  - rewrite Htrace. reflexivity.
  - repeat constructor. exact Hlater.
Qed.

(** C9. [get_session] hands the request a session that is new (bound to the
    engine, nothing pending, open), passes the outcome of the request on
    unchanged, and closes the session as its last act, both when the
    request returns and when it raises; in particular the session of every
    request to the endpoint is opened once, first, and closed once, last. *)
Theorem session_closed_on_every_exit
    (A : Type) (engine : Database) (request : M A) :
  let entered := {| session := Session_new engine; trace := [SessionOpen] |} in
  (bind (session entered) = engine
   /\ new (session entered) = []
   /\ closed (session entered) = false)
  /\ fst (get_session engine request) = fst (request entered)
  /\ closed (session (snd (get_session engine request))) = true
  /\ trace (snd (get_session engine request))
     = trace (snd (request entered)) ++ [SessionClose]
  /\ (forall (e : exc) (st : State),
        request entered = (Raise e, st) ->
        get_session engine request =
        (Raise e, {| session := Session_close (session st);
                     trace := trace st ++ [SessionClose] |})
        /\ closed (Session_close (session st)) = true)
  /\ (forall (env : Env) (x_user_id : option Z) (body : EntryCreateRequest.raw),
        exists r st between,
          post_analyze_entry env engine x_user_id body = (r, st)
          /\ closed (session st) = true
          /\ new (session st) = []
          /\ trace st = SessionOpen :: between ++ [SessionClose]
          /\ Forall (fun ev => is_open_or_close ev = false) between).
Proof.
  intros entered. split; [repeat split|].
  unfold get_session. fold entered.
  destruct (request entered) as [[a|e] st] eqn:Hrun; simpl.
  - split; [reflexivity|]. split; [reflexivity|]. split; [reflexivity|].
    split; [discriminate|].
    intros. apply post_analyze_entry_brackets.
  - split; [reflexivity|]. split; [reflexivity|]. split; [reflexivity|].
    split.
    + intros e' st' [= <- <-]. split; reflexivity.
    + intros. apply post_analyze_entry_brackets.
Qed.

(** C10. Text that is not empty and consists of whitespace only is not
    refused: the call never raises a 400, the model is invoked with the
    prompt built from the text, and a call that succeeds inserts one row
    whose [word_count] is 0. *)
Theorem whitespace_only_text_is_accepted
    (env : Env) (entry_data : EntryCreateRequest.t) (current_user : User.t)
    (st : State) :
  EntryCreateRequest.text entry_data <> [] ->
  Forall (fun c => isspace c = true) (EntryCreateRequest.text entry_data) ->
  (forall d : pystr,
     fst (analyze_and_save_entry env entry_data current_user st)
     <> Raise (HTTPException 400 d))
  /\ (exists later,
        trace (snd (analyze_and_save_entry env entry_data current_user st))
        = trace st
          ++ LlmInvoke (prompt_invoke env (EntryCreateRequest.text entry_data))
             :: later)
  /\ (forall (a : SimplifiedAnalysis.t) (st' : State),
        new (session st) = [] ->
        analyze_and_save_entry env entry_data current_user st = (Ok a, st') ->
        exists row,
          rows_of st' = rows_of st ++ [row]
          /\ JournalEntry.text row = Some (EntryCreateRequest.text entry_data)
          /\ JournalEntry.word_count row = 0).
Proof.
  intros Hne Hspace.
  destruct (nonempty_text_outcomes env entry_data current_user st Hne)
    as (r & st1 & later & Hrun & Htrace & _ & Hr).
  rewrite Hrun. simpl. split; [|split].
  - intros d E. destruct Hr as [[a ->] | [d' ->]]; discriminate.
  - exists later. exact Htrace.
  - intros a st' Hnew [= -> ->].
    destruct (successful_call_inserts _ _ _ _ _ _ Hnew Hrun) as (Hrows & _).
    eexists. split; [exact Hrows|]. split; [reflexivity|].
    simpl. rewrite (split_whitespace_only _ Hspace). reflexivity.
Qed.

(** ** The theorems at the running instance *)

Lemma one_row_per_successful_call_witness :
  new (session Demo.entered) = []
  /\ fst (analyze_and_save_entry Demo.env Demo.good_day Demo.user7 Demo.entered)
     = Ok Demo.analysis
  /\ exists row,
       rows_of (snd (analyze_and_save_entry Demo.env Demo.good_day Demo.user7
                       Demo.entered)) = [row]
       /\ JournalEntry.user_id row = 7
       /\ JournalEntry.word_count row = 5.
Proof.
  split; [reflexivity|]. split; [vm_compute; reflexivity|].
  destruct (one_row_per_successful_call Demo.env Demo.good_day Demo.user7
              Demo.entered
              (snd (analyze_and_save_entry Demo.env Demo.good_day Demo.user7
                      Demo.entered))
              Demo.analysis)
    as (_ & row & Hrows & _ & Huser & Hwords & _).
  - reflexivity.
  - vm_compute. reflexivity.
  - exists row. split; [exact Hrows|]. split; [exact Huser | exact Hwords].
Defined.

Lemma persistence_failure_rolls_back_witness :
  exists e st',
    analyze_and_save_entry Demo.env_commit_fails Demo.good_day Demo.user7
      Demo.entered = (Raise e, st')
    /\ e = HTTPException 500
             (py "Failed to save the entry to the database: connection reset")
    /\ rows_of st' = [].
Proof.
  destruct (persistence_failure_rolls_back Demo.env_commit_fails Demo.good_day
              Demo.user7 Demo.entered Demo.reply Demo.analysis
              (py "connection reset"))
    as (e & st' & Hrun & Herr & _ & _ & Hbind & _).
  - discriminate.
  - reflexivity.
  - reflexivity.
  - right. split; reflexivity.
  - exists e, st'. split; [exact Hrun|]. split; [exact Herr|].
    unfold rows_of. rewrite Hbind. reflexivity.
Defined.

Lemma upstream_failure_creates_nothing_witness :
  exists e st',
    analyze_and_save_entry Demo.env_llm_down Demo.good_day Demo.user7
      Demo.entered = (Raise e, st')
    /\ e = HTTPException 500
             (py "Failed to get a structured response from the AI: 503 Service Unavailable")
    /\ rows_of st' = [].
Proof.
  destruct (upstream_failure_creates_nothing Demo.env_llm_down Demo.good_day
              Demo.user7 Demo.entered
              (PyError (py "503 Service Unavailable")))
    as (e & st' & Hrun & Herr & _ & _ & _ & Hrows).
  - discriminate.
  - left. reflexivity.
  - exists e, st'. split; [exact Hrun|]. split; [exact Herr | exact Hrows].
Defined.

Lemma get_current_user_outcomes_witness :
  (exists e,
     get_current_user (Some 999) Demo.entered =
       (Raise e, {| session := session Demo.entered;
                    trace := trace Demo.entered ++ [SessionGet 999] |})
     /\ NotFound e)
  /\ (exists found,
        fst (get_current_user (Some 7) Demo.entered) = Ok found
        /\ User.user_id found = 7).
Proof.
  destruct (get_current_user_outcomes Demo.env Demo.entered)
    as (_ & Hmissing & _ & Hfound & _).
  split.
  - destruct (Hmissing 999) as (e & Hrun & Herr & _).
    + repeat constructor. vm_compute. discriminate.
    + exists e. split; [exact Hrun | exact Herr].
  - destruct (Hfound 7 Demo.user7) as (found & Hrun & _ & Hkey).
    + left. reflexivity.
    + reflexivity.
    + exists found. rewrite Hrun. split; [reflexivity | exact Hkey].
Defined.

Lemma saved_row_columns_witness :
  exists row,
    rows_of (snd (analyze_and_save_entry Demo.env Demo.good_day Demo.user7
                    Demo.entered)) = [row]
    /\ JournalEntry.text row = Some (py "Today was a good day.")
    /\ JournalEntry.sentiment_score row = Some 6
    /\ JournalEntry.entry_status row = Some PUBLISHED
    /\ JournalEntry.entry_date row = {| year := 2024; month := 5; day := 17 |}.
Proof.
  destruct (saved_row_columns Demo.env Demo.good_day Demo.user7 Demo.entered
              (snd (analyze_and_save_entry Demo.env Demo.good_day Demo.user7
                      Demo.entered))
              Demo.analysis)
    as (out & row & m & _ & _ & Hrows & Hdate & Htext & Hscore & Hstatus & _).
  - reflexivity.
  - vm_compute. reflexivity.
  - exists row. split; [exact Hrows|]. split; [exact Htext|].
    split; [exact Hscore|]. split; [exact Hstatus | exact Hdate].
Defined.

Lemma good_day_scenario_witness :
  exists st' row,
    post_analyze_entry Demo.env Demo.engine (Some 7)
      (Demo.body "Today was a good day.") = (Ok Demo.analysis, st')
    /\ rows_of st' = [row]
    /\ JournalEntry.word_count row = 5
    /\ JournalEntry.entry_status row = Some PUBLISHED.
Proof.
  destruct (good_day_scenario Demo.env Demo.engine Demo.user7 Demo.reply
              Demo.analysis)
    as ((st' & row & Hrun & _ & _ & Hrows & _ & Hwords & Hstatus & _) & _).
  - left. reflexivity.
  - reflexivity.
  - reflexivity.
  - reflexivity.
  - reflexivity.
  - reflexivity.
  - reflexivity.
  - exists st', row. split; [exact Hrun|]. split; [exact Hrows|].
    split; [exact Hwords | exact Hstatus].
Defined.

Lemma entry_status_default_and_domain_witness :
  In (py "archived") [py "draft"; py "published"; py "archived"]
  /\ EntryStatus_value ARCHIVED = py "archived".
Proof.
  destruct (entry_status_default_and_domain (py "Rainy.")) as (_ & Hdomain & _).
  destruct (Hdomain (py "archived")
              {| EntryCreateRequest.text := py "Rainy.";
                 EntryCreateRequest.entry_status := ARCHIVED |})
    as (Hin & Hvalue & _).
  - reflexivity.
  - split; [exact Hin | exact Hvalue].
Defined.

Lemma session_closed_on_every_exit_witness :
  exists st',
    get_session Demo.engine (@raise unit (PyError (py "boom")))
    = (Raise (PyError (py "boom")), st')
    /\ closed (session st') = true.
Proof.
  destruct (session_closed_on_every_exit unit Demo.engine
              (raise (PyError (py "boom"))))
    as (_ & _ & _ & _ & Hraise & _).
  destruct (Hraise (PyError (py "boom"))
              {| session := Session_new Demo.engine; trace := [SessionOpen] |})
    as (Hrun & Hclosed).
  - reflexivity.
  - eexists. split; [exact Hrun | exact Hclosed].
Defined.

Lemma whitespace_only_text_is_accepted_witness :
  fst (analyze_and_save_entry Demo.env (Demo.entry " ") Demo.user7 Demo.entered)
  = Ok Demo.analysis
  /\ exists row,
       rows_of (snd (analyze_and_save_entry Demo.env (Demo.entry " ")
                       Demo.user7 Demo.entered)) = [row]
       /\ JournalEntry.text row = Some (py " ")
       /\ JournalEntry.word_count row = 0.
Proof.
  split; [vm_compute; reflexivity|].
  destruct (whitespace_only_text_is_accepted Demo.env (Demo.entry " ")
              Demo.user7 Demo.entered)
    as (_ & _ & Hsaved).
  - discriminate.
  - repeat constructor.
  - destruct (Hsaved Demo.analysis
                (snd (analyze_and_save_entry Demo.env (Demo.entry " ")
                        Demo.user7 Demo.entered)))
      as (row & Hrows & Htext & Hwords).
    + reflexivity.
    + vm_compute. reflexivity.
    + exists row. split; [exact Hrows|]. split; [exact Htext | exact Hwords].
Defined.

(** ** Checks on concrete values *)

Example split_example :
  split (py "  Today was	a good
 day.  ") = [py "Today"; py "was"; py "a"; py "good"; py "day."].
Proof. reflexivity. Qed.

Example split_counts :
  whitespace_token_count (py "Today was a good day.") = 5%nat
  /\ whitespace_token_count (py "") = 0%nat
  /\ whitespace_token_count (py " ") = 0%nat
  /\ whitespace_token_count (py "one") = 1%nat.
Proof. repeat split; reflexivity. Qed.

Example str_of_int_example :
  str_of_int 999 = py "999" /\ str_of_int 0 = py "0" /\ str_of_int (-7) = py "-7".
Proof. repeat split; reflexivity. Qed.

Example not_found_detail :
  fst (post_analyze_entry Demo.env Demo.engine (Some 999)
         (Demo.body "Today was a good day."))
  = Raise (HTTPException 404 (py "User with ID 999 not found.")).
Proof. reflexivity. Qed.

Example garbled_reply :
  fst (post_analyze_entry Demo.env_garbled Demo.engine (Some 7)
         (Demo.body "Today was a good day."))
  = Raise (HTTPException 500
             (py "Failed to get a structured response from the AI: Invalid json output")).
Proof. vm_compute. reflexivity. Qed.

Example refresh_failure_example :
  exists e st',
    post_analyze_entry Demo.env_refresh_fails Demo.engine (Some 7)
      (Demo.body "Today was a good day.") = (Raise e, st')
    /\ status_of (@Raise SimplifiedAnalysis.t e) = 500
    /\ length (rows_of st') = 1%nat.
Proof. eexists _, _. vm_compute. repeat split. Qed.

(** * Further properties of the code *)

(** ** Every request ends in one of the listed runs *)

Lemma post_analyze_entry_outcome
    (env : Env) (engine : Database) (x_user_id : option Z)
    (body : EntryCreateRequest.raw) :
  exists r st,
    post_analyze_entry env engine x_user_id body = (r, st)
    /\ Outcome env engine x_user_id body r st.
Proof.
  destruct x_user_id as [uid|].
  2:{ eexists _, _. split; [reflexivity|]. now apply no_identity. }
  enter_request.
  destruct (List.find _ (user_table engine)) as [u|] eqn:Hfind.
  2:{ eexists _, _. split; [reflexivity|]. now apply (unknown_user _ _ _ _ uid). }
  destruct (EntryCreateRequest.validate body) as [entry_data|] eqn:Hvalid.
  2:{ eexists _, _. split; [reflexivity|].
      now apply (invalid_body _ _ _ _ uid u). }
  set (st0 := {| session := Session_new engine;
                 trace := [SessionOpen; SessionGet uid] |}).
  destruct (decide (EntryCreateRequest.text entry_data = [])) as [Hempty|Hne].
  { rewrite (path_empty_text env entry_data u st0 Hempty).
    eexists _, _. split; [reflexivity|].
    now apply (empty_text _ _ _ _ uid u entry_data). }
  destruct (llm_reply env (prompt_invoke env (EntryCreateRequest.text entry_data)))
    as [out|e] eqn:Hllm.
  2:{ rewrite (path_llm_raises env entry_data u st0 e Hne Hllm).
      eexists _, _. split; [reflexivity|].
      apply (analysis_failed _ _ _ _ uid u entry_data e); auto. }
  destruct (parser_parse env out) as [a|e] eqn:Hparse.
  2:{ rewrite (path_parse_raises env entry_data u st0 out e Hne Hllm Hparse).
      eexists _, _. split; [reflexivity|].
      apply (analysis_failed _ _ _ _ uid u entry_data e); eauto. }
  destruct (add_fault env) as [c|] eqn:Hadd.
  { rewrite (path_add_raises env entry_data u out a Hne Hllm Hparse st0 c Hadd).
    eexists _, _. split; [reflexivity|].
    apply (not_saved _ _ _ _ uid u entry_data out a c [SessionAdd]); auto. }
  destruct (commit_fault env) as [c|] eqn:Hcommit.
  { rewrite (path_commit_raises env entry_data u out a Hne Hllm Hparse st0 c
               Hadd Hcommit).
    eexists _, _. split; [reflexivity|].
    apply (not_saved _ _ _ _ uid u entry_data out a c
             [SessionAdd; SessionCommit]); auto. }
  destruct (refresh_fault env) as [c|] eqn:Hrefresh.
  { rewrite (path_refresh_raises env entry_data u out a Hne Hllm Hparse st0 c
               Hadd Hcommit Hrefresh).
    eexists _, _. split; [reflexivity|].
    apply (saved_then_failed _ _ _ _ uid u entry_data out a c); auto. }
  rewrite (path_success env entry_data u out a Hne Hllm Hparse st0
             Hadd Hcommit Hrefresh).
  eexists _, _. split; [reflexivity|].
  apply (saved _ _ _ _ uid u entry_data out a); auto.
Qed.

Lemma validate_text (body : EntryCreateRequest.raw) (entry_data : EntryCreateRequest.t) :
  EntryCreateRequest.validate body = Some entry_data ->
  EntryCreateRequest.raw_text body = Some (EntryCreateRequest.text entry_data).
Proof.
  unfold EntryCreateRequest.validate.
  destruct (EntryCreateRequest.raw_text body) as [txt|]; [|discriminate].
  destruct (EntryCreateRequest.raw_entry_status body) as [v|].
  - destruct (EntryStatus_of_value v); [|discriminate]. now intros [= <-].
  - now intros [= <-].
Qed.

Lemma lookup_user_key (engine : Database) (uid : Z) (u : User.t) :
  lookup_user engine uid = Some u ->
  In u (user_table engine) /\ User.user_id u = uid.
Proof.
  unfold lookup_user. intros Hfind.
  apply List.find_some in Hfind as [Hin Hkey]. split; [exact Hin | lia].
Qed.

(** X1. Whatever the model client, the parser and the session raise, a call
    of the endpoint function returns an analysis or raises an HTTP error
    with status 400 or 500, and 400 exactly when the text is empty: no
    other exception leaves it. *)
Theorem handler_raises_only_http_errors
    (env : Env) (entry_data : EntryCreateRequest.t) (current_user : User.t)
    (st : State) :
  let r := fst (analyze_and_save_entry env entry_data current_user st) in
  ((exists a, r = Ok a)
   \/ r = Raise (HTTPException 400 (py "Entry text cannot be empty."))
   \/ (exists d, r = Raise (HTTPException 500 d)))
  /\ (status_of r = 400 <-> EntryCreateRequest.text entry_data = []).
Proof.
  intros r. subst r.
  destruct (decide (EntryCreateRequest.text entry_data = [])) as [Hempty|Hne].
  - rewrite (path_empty_text env entry_data current_user st Hempty). simpl.
    split; [right; left; reflexivity | split; [intros _; exact Hempty | reflexivity]].
  - destruct (nonempty_text_outcomes env entry_data current_user st Hne)
      as (r & st' & later & Hrun & _ & _ & Hr).
    rewrite Hrun. simpl.
    destruct Hr as [[a ->] | [d ->]]; simpl.
    + split; [left; eauto | split; [discriminate | contradiction]].
    + split; [right; right; eauto | split; [discriminate | contradiction]].
Qed.

Ltac outcome_cases env engine x body r st Hrun :=
  let Hout := fresh "Hout" in
  destruct (post_analyze_entry_outcome env engine x body)
    as (r & st & Hrun & Hout);
  rewrite Hrun; cbn [fst snd]; clear Hrun;
  destruct Hout as [ Hx
                   | uid Hx Hlookup
                   | uid u Hx Hlookup Hvalid
                   | uid u ed Hx Hlookup Hvalid Hempty
                   | uid u ed cause Hx Hlookup Hvalid Hne Hfailed
                   | uid u ed out a cause attempted Hx Hlookup Hvalid Hne
                       Hllm Hparse Hfault
                   | uid u ed out a cause Hx Hlookup Hvalid Hne Hllm
                       Hparse Hadd Hcommit Hrefresh
                   | uid u ed out a Hx Hlookup Hvalid Hne Hllm Hparse
                       Hadd Hcommit Hrefresh ].


(** X3. No request rewrites or deletes stored data: the user table is as it
    was and the journal table is the old one followed by at most one row.
    A 200 means one row was added; after a 400, 401, 404 or 422 the
    database is exactly as before; a row is added only if the commit went
    through, and the added row carries the identity of the header and the
    text of the body. *)
Theorem request_storage_effect
    (env : Env) (engine : Database) (x_user_id : option Z)
    (body : EntryCreateRequest.raw) :
  exists r st added,
    post_analyze_entry env engine x_user_id body = (r, st)
    /\ user_table (bind (session st)) = user_table engine
    /\ rows_of st = journal_entry_table engine ++ added
    /\ (length added <= 1)%nat
    /\ (status_of r = 200 -> length added = 1%nat)
    /\ (In (status_of r) [400; 401; 404; 422] -> bind (session st) = engine)
    /\ (added = [] -> bind (session st) = engine)
    /\ Forall (fun row =>
                 x_user_id = Some (JournalEntry.user_id row)
                 /\ EntryCreateRequest.raw_text body = JournalEntry.text row
                 /\ commit_fault env = None
                 /\ (status_of r = 200
                     \/ (status_of r = 500 /\ refresh_fault env <> None)))
              added.
Proof.
  destruct (post_analyze_entry_outcome env engine x_user_id body)
    as (r & st & Hrun & Hout).
  exists r, st.
  destruct Hout as [ Hx
                   | uid Hx Hlookup
                   | uid u Hx Hlookup Hvalid
                   | uid u ed Hx Hlookup Hvalid Hempty
                   | uid u ed cause Hx Hlookup Hvalid Hne Hfailed
                   | uid u ed out a cause attempted Hx Hlookup Hvalid Hne
                       Hllm Hparse Hfault
                   | uid u ed out a cause Hx Hlookup Hvalid Hne Hllm
                       Hparse Hadd Hcommit Hrefresh
                   | uid u ed out a Hx Hlookup Hvalid Hne Hllm Hparse
                       Hadd Hcommit Hrefresh ].
  1-6: exists []; unfold rows_of; simpl; rewrite app_nil_r;
       (split; [exact Hrun|]);
       repeat (split; [first [reflexivity | lia | intros E; discriminate E
                              | intros _; reflexivity]|]);
       constructor.
  all: destruct (lookup_user_key _ _ _ Hlookup) as [_ Hkey];
       pose proof (validate_text _ _ Hvalid) as Htext;
       exists [JournalEntry.with_id
                 (next_journal_entry_id (journal_entry_table engine))
                 (described_row env ed u a)];
       (split; [exact Hrun|]);
       (split; [reflexivity|]); (split; [reflexivity|]); simpl;
       (split; [lia|]); (split; [intros _; reflexivity|]);
       (split; [intros Hcode; exfalso; lia|]);
       (split; [intros E; discriminate E|]);
       (apply List.Forall_cons; [|apply List.Forall_nil]);
       cbn [JournalEntry.user_id JournalEntry.text JournalEntry.with_id
            described_row];
       (split; [congruence|]); (split; [exact Htext|]);
       (split; [exact Hcommit|]).
  - right. split; [reflexivity | congruence].
  - left. reflexivity.
Qed.

(** X4. A request calls the model at most once, and exactly once when the
    user exists, the body is valid and its text is not empty; the prompt
    it sends is the one built from the text of the body. *)
Theorem llm_invoked_at_most_once
    (env : Env) (engine : Database) (x_user_id : option Z)
    (body : EntryCreateRequest.raw) :
  let st := snd (post_analyze_entry env engine x_user_id body) in
  (llm_calls (trace st) <= 1)%nat
  /\ (llm_calls (trace st) = 1%nat <->
      exists uid u entry_data,
        x_user_id = Some uid /\ lookup_user engine uid = Some u
        /\ EntryCreateRequest.validate body = Some entry_data
        /\ EntryCreateRequest.text entry_data <> [])
  /\ (forall p,
        In (LlmInvoke p) (trace st) ->
        exists txt,
          EntryCreateRequest.raw_text body = Some txt
          /\ txt <> [] /\ p = prompt_invoke env txt).
Proof.
  intros st0. subst st0.
  outcome_cases env engine x_user_id body r st Hrun;
    try (destruct Hfault as [[_ ->] | (_ & _ & ->)]);
    unfold llm_calls; simpl;
    (split; [lia|]);
    (split;
     [split;
      [ intros E; try discriminate E; eauto 8
      | intros (uid' & u' & ed' & ? & ? & ? & ?); try congruence ]
     | intros p Hin;
       repeat (destruct Hin as [Hin | Hin]; try discriminate Hin);
       try contradiction;
       injection Hin as <-;
       (eexists; split;
        [apply validate_text; exact Hvalid | split; [exact Hne | reflexivity]]) ]).
Qed.

Lemma post_analyze_entry_saved_then_failed
    (env : Env) (engine : Database) (uid : Z) (u : User.t)
    (body : EntryCreateRequest.raw) (entry_data : EntryCreateRequest.t)
    (out : pystr) (a : SimplifiedAnalysis.t) (cause : pystr) :
  lookup_user engine uid = Some u ->
  EntryCreateRequest.validate body = Some entry_data ->
  EntryCreateRequest.text entry_data <> [] ->
  llm_reply env (prompt_invoke env (EntryCreateRequest.text entry_data)) = Ok out ->
  parser_parse env out = Ok a ->
  add_fault env = None -> commit_fault env = None ->
  refresh_fault env = Some cause ->
  post_analyze_entry env engine (Some uid) body =
  (Raise (HTTPException 500
            (py "Failed to save the entry to the database: " ++ cause)),
   finished (stored engine (described_row env entry_data u a))
     [SessionGet uid;
      LlmInvoke (prompt_invoke env (EntryCreateRequest.text entry_data));
      SessionAdd; SessionCommit; SessionRefresh; SessionRollback]).
Proof.
  unfold lookup_user.
  intros Hfind Hvalid Hne Hllm Hparse Hadd Hcommit Hrefresh.
  enter_request. rewrite Hfind, Hvalid.
  rewrite (path_refresh_raises env entry_data u out a Hne Hllm Hparse _ cause
             Hadd Hcommit Hrefresh).
  reflexivity.
Qed.

(** X5. When add and commit go through and only the read-back raises, the
    response is 500 with the persistence detail although the entry has
    been stored; if the client then repeats the request and it succeeds,
    the same text is stored a second time for the same user. *)
Theorem refresh_failure_then_retry_stores_twice
    (env env2 : Env) (engine : Database) (uid : Z) (u : User.t)
    (body : EntryCreateRequest.raw) (entry_data : EntryCreateRequest.t)
    (out out2 : pystr) (a a2 : SimplifiedAnalysis.t) (cause : pystr) :
  lookup_user engine uid = Some u ->
  EntryCreateRequest.validate body = Some entry_data ->
  EntryCreateRequest.text entry_data <> [] ->
  llm_reply env (prompt_invoke env (EntryCreateRequest.text entry_data)) = Ok out ->
  parser_parse env out = Ok a ->
  add_fault env = None -> commit_fault env = None ->
  refresh_fault env = Some cause ->
  llm_reply env2 (prompt_invoke env2 (EntryCreateRequest.text entry_data))
    = Ok out2 ->
  parser_parse env2 out2 = Ok a2 ->
  add_fault env2 = None -> commit_fault env2 = None ->
  refresh_fault env2 = None ->
  exists st1 st2 row1 row2,
    post_analyze_entry env engine (Some uid) body =
      (Raise (HTTPException 500
                (py "Failed to save the entry to the database: " ++ cause)),
       st1)
    /\ rows_of st1 = journal_entry_table engine ++ [row1]
    /\ post_analyze_entry env2 (bind (session st1)) (Some uid) body
       = (Ok a2, st2)
    /\ rows_of st2 = journal_entry_table engine ++ [row1; row2]
    /\ JournalEntry.text row1 = Some (EntryCreateRequest.text entry_data)
    /\ JournalEntry.text row2 = Some (EntryCreateRequest.text entry_data)
    /\ JournalEntry.user_id row1 = uid
    /\ JournalEntry.user_id row2 = uid
    /\ row1 <> row2.
Proof.
  intros Hlookup Hvalid Hne Hllm Hparse Hadd Hcommit Hrefresh
         Hllm2 Hparse2 Hadd2 Hcommit2 Hrefresh2.
  destruct (lookup_user_key _ _ _ Hlookup) as [_ Hkey].
  pose proof (post_analyze_entry_saved_then_failed env engine uid u body
                entry_data out a cause Hlookup Hvalid Hne Hllm Hparse
                Hadd Hcommit Hrefresh) as Hrun1.
  set (db1 := stored engine (described_row env entry_data u a)) in *.
  pose proof (post_analyze_entry_success env2 db1 uid u body entry_data
                out2 a2 Hlookup Hvalid Hne Hllm2 Hparse2
                Hadd2 Hcommit2 Hrefresh2) as Hrun2.
  eexists _, _, _, _.
  split; [exact Hrun1|]. split; [reflexivity|].
  split; [exact Hrun2|].
  split.
  { unfold rows_of. cbn [session Session_close bind].
    rewrite flush_one_row by reflexivity.
    cbn [Session_new bind db1 stored journal_entry_table].
    rewrite <- app_assoc. reflexivity. }
  split; [reflexivity|]. split; [reflexivity|].
  split; [exact Hkey|]. split; [exact Hkey|].
  intros E. apply (f_equal JournalEntry.journal_entry_id) in E.
  cbn [JournalEntry.journal_entry_id JournalEntry.with_id] in E.
  pose proof (next_journal_entry_id_unused (journal_entry_table db1)) as Hfresh.
  rewrite List.Forall_forall in Hfresh.
  apply (Hfresh (JournalEntry.with_id
                   (next_journal_entry_id (journal_entry_table engine))
                   (described_row env entry_data u a))).
  - unfold db1, stored. cbn [journal_entry_table].
    apply in_or_app. right. left. reflexivity.
  - cbn [JournalEntry.journal_entry_id JournalEntry.with_id]. exact E.
Qed.

(** ** Integrity of the stored data *)

Lemma stored_ok (engine : Database) (row : JournalEntry.t) (u : User.t) :
  Database_ok engine ->
  In u (user_table engine) ->
  User.user_id u = JournalEntry.user_id row ->
  Database_ok (stored engine row).
Proof.
  intros [Hkeys Hrows] Hin Hkey. unfold Database_ok, stored. simpl. split.
  - rewrite List.map_app. simpl.
    apply NoDup_app. split; [exact Hkeys|]. split.
    + intros k Hk Hk'. apply list_elem_of_In in Hk, Hk'.
      destruct Hk' as [<-|[]].
      apply List.in_map_iff in Hk as (old & Hold & Hin_old).
      pose proof (next_journal_entry_id_unused (journal_entry_table engine))
        as Hfresh.
      rewrite List.Forall_forall in Hfresh. exact (Hfresh old Hin_old Hold).
    + apply NoDup_singleton.
  - apply List.Forall_app. split; [exact Hrows|].
    constructor; [|constructor]. simpl. split; [discriminate|].
    exists u. auto.
Qed.

(** X6. Requests keep the stored data sound: if every journal entry has a
    key, no key is used twice and every entry belongs to a stored user,
    then the same holds of the database any request leaves behind. *)
Theorem requests_keep_database_ok
    (env : Env) (engine : Database) (x_user_id : option Z)
    (body : EntryCreateRequest.raw) :
  Database_ok engine ->
  Database_ok (bind (session (snd (post_analyze_entry env engine x_user_id body)))).
Proof.
  intros Hok.
  outcome_cases env engine x_user_id body r st Hrun;
    try exact Hok;
    destruct (lookup_user_key _ _ _ Hlookup) as [Hin _];
    apply (stored_ok engine _ u Hok Hin); reflexivity.
Qed.

(** ** Looking a user up *)

Lemma find_by_unique_key (users : list User.t) (u : User.t) :
  NoDup (List.map User.user_id users) ->
  In u users ->
  List.find (fun v => User.user_id v =? User.user_id u) users = Some u.
Proof.
  induction users as [|v users IH]; simpl; [contradiction|].
  intros Hnodup [->|Hin].
  - rewrite Z.eqb_refl. reflexivity.
  - apply NoDup_cons in Hnodup as [Hfresh Hnodup].
    destruct (Z.eqb_spec (User.user_id v) (User.user_id u)) as [E|_].
    + exfalso. apply Hfresh. rewrite E.
      apply list_elem_of_In. apply List.in_map. exact Hin.
    + apply IH; assumption.
Qed.

(** X7. When the keys of the user table are pairwise distinct, the
    authenticator given the key of a stored user returns that very row,
    after one lookup and with the session untouched. *)
Theorem get_current_user_returns_the_stored_row (st : State) (u : User.t) :
  NoDup (List.map User.user_id (user_table (bind (session st)))) ->
  In u (user_table (bind (session st))) ->
  get_current_user (Some (User.user_id u)) st =
  (Ok u, {| session := session st;
            trace := trace st ++ [SessionGet (User.user_id u)] |}).
Proof.
  intros Hnodup Hin. run_request.
  rewrite (find_by_unique_key _ _ Hnodup Hin). reflexivity.
Qed.

(** ** More on [str.split] and the word count *)

Section SplitLaws.

Lemma split_scan_concat (s : pystr) :
  forall cur,
    List.concat (split_scan cur s) =
    match cur with Some w => rev w | None => [] end
    ++ List.filter (fun c => negb (isspace c)) s.
Proof.
  induction s as [|c rest IH]; intros cur; simpl.
  - destruct cur; simpl; rewrite ?app_nil_r; reflexivity.
  - destruct (isspace c); simpl.
    + destruct cur as [w|]; simpl; rewrite IH; reflexivity.
    + destruct cur as [w|]; rewrite IH; simpl.
      * rewrite <- app_assoc. reflexivity.
      * reflexivity.
Qed.

Lemma split_scan_separator (s1 s2 : pystr) (c : N) :
  isspace c = true ->
  forall cur,
    split_scan cur (s1 ++ c :: s2) = split_scan cur s1 ++ split_scan None s2.
Proof.
  intros Hc. induction s1 as [|d s1 IH]; intros cur; simpl.
  - rewrite Hc. destruct cur; reflexivity.
  - destruct (isspace d); destruct cur as [w|]; simpl; rewrite IH; reflexivity.
Qed.

Lemma split_scan_bound (s : pystr) :
  forall cur,
    (2 * length (split_scan cur s)
     <= length s + match cur with Some _ => 2 | None => 1 end)%nat.
Proof.
  induction s as [|c rest IH]; intros cur; simpl.
  - destruct cur; simpl; lia.
  - destruct (isspace c); destruct cur as [w|]; simpl.
    + specialize (IH None). simpl in IH. lia.
    + specialize (IH None). simpl in IH. lia.
    + specialize (IH (Some (c :: w))). simpl in IH. lia.
    + specialize (IH (Some [c])). simpl in IH. lia.
Qed.

Lemma filter_nil_all_space (s : pystr) :
  List.filter (fun c => negb (isspace c)) s = [] ->
  Forall (fun c => isspace c = true) s.
Proof.
  induction s as [|c rest IH]; simpl; [constructor|].
  destruct (isspace c) eqn:Hc; simpl; [|discriminate].
  intros E. constructor; [exact Hc | exact (IH E)].
Qed.

Lemma split_nil_iff (s : pystr) :
  split s = [] <-> Forall (fun c => isspace c = true) s.
Proof.
  split; [|apply split_whitespace_only].
  intros E. apply filter_nil_all_space.
  pose proof (split_scan_concat s None) as Hcat.
  fold (split s) in Hcat. rewrite E in Hcat. simpl in Hcat. auto.
Qed.

End SplitLaws.

(** X8. The [word_count] a successful call stores is at least 0 and at most
    half the length of the text rounded up, and it is 0 exactly when the
    text consists of whitespace only. *)
Theorem stored_word_count_bounds
    (env : Env) (entry_data : EntryCreateRequest.t) (current_user : User.t)
    (st st' : State) (a : SimplifiedAnalysis.t) :
  new (session st) = [] ->
  analyze_and_save_entry env entry_data current_user st = (Ok a, st') ->
  exists row,
    rows_of st' = rows_of st ++ [row]
    /\ 0 <= JournalEntry.word_count row
    /\ 2 * JournalEntry.word_count row
       <= Z.of_nat (length (EntryCreateRequest.text entry_data)) + 1
    /\ (JournalEntry.word_count row = 0 <->
        Forall (fun c => isspace c = true) (EntryCreateRequest.text entry_data)).
Proof.
  intros Hnew Hrun.
  destruct (successful_call_inserts _ _ _ _ _ _ Hnew Hrun) as (Hrows & _).
  eexists. split; [exact Hrows|].
  cbn [JournalEntry.word_count JournalEntry.with_id described_row].
  pose proof (split_scan_bound (EntryCreateRequest.text entry_data) None)
    as Hbound.
  fold (split (EntryCreateRequest.text entry_data)) in Hbound.
  cbn beta iota in Hbound.
  split; [lia|]. split; [lia|].
  rewrite <- split_nil_iff. split.
  - intros E. destruct (split (EntryCreateRequest.text entry_data));
      [reflexivity | simpl in E; lia].
  - intros ->. reflexivity.
Qed.

(** X9. The tokens of [text.split()], put together in order, are the text
    with its whitespace removed; and every token is non-empty and contains
    no whitespace. *)
Theorem split_keeps_the_non_whitespace (s : pystr) :
  List.concat (split s) = List.filter (fun c => negb (isspace c)) s
  /\ Forall (fun tok => tok <> [] /\ Forall (fun c => isspace c = false) tok)
            (split s).
Proof.
  split; [apply (split_scan_concat s None) | apply split_tokens].
Qed.

(** X10. A whitespace character separates: the tokens of a text with a
    whitespace character in it are the tokens of the part before followed
    by the tokens of the part after, so the word counts add up, and
    whitespace in front of or behind a text changes nothing. *)
Theorem split_at_whitespace (s1 s2 : pystr) (c : N) :
  isspace c = true ->
  split (s1 ++ c :: s2) = split s1 ++ split s2
  /\ length (split (s1 ++ c :: s2))
     = (length (split s1) + length (split s2))%nat
  /\ split (c :: s2) = split s2
  /\ split (s1 ++ [c]) = split s1.
Proof.
  intros Hc.
  pose proof (split_scan_separator s1 s2 c Hc None) as Hsep.
  fold (split (s1 ++ c :: s2)) (split s1) (split s2) in Hsep.
  split; [exact Hsep|]. split; [rewrite Hsep; apply length_app|].
  split.
  - apply (split_scan_separator [] s2 c Hc None).
  - pose proof (split_scan_separator s1 [] c Hc None) as Hend.
    simpl in Hend. unfold split. rewrite Hend. apply app_nil_r.
Qed.

(** ** The prompt *)

(** X11. Filling the template never fails, whatever the entry and the format
    instructions contain, braces included, and gives the fixed opening,
    the format instructions, the separator lines and the entry as given
    followed by a line break; two different entries never give the same
    prompt. *)
Theorem prompt_template_fills_verbatim (env : Env) (entry : pystr) :
  PromptTemplate_invoke env entry = Ok (prompt_invoke env entry)
  /\ (exists opening,
        prompt_invoke env entry = opening ++ entry ++ py "
")
  /\ (forall other : pystr,
        prompt_invoke env other = prompt_invoke env entry -> other = entry).
Proof.
  split; [|split].
  - unfold PromptTemplate_invoke, prompt_invoke. vm_compute. reflexivity.
  - unfold prompt_invoke. eexists.
    rewrite (app_assoc _ (format_instructions env)).
    rewrite (app_assoc _ (py "
---
JOURNAL ENTRY:
")).
    reflexivity.
  - unfold prompt_invoke. intros other E.
    repeat apply List.app_inv_head in E.
    apply List.app_inv_tail in E. exact E.
Qed.

(** ** Start-up *)

Lemma load_dotenv_twice (dotenv environ : gmap pystr pystr) :
  load_dotenv dotenv (load_dotenv dotenv environ) = load_dotenv dotenv environ.
Proof.
  unfold load_dotenv. rewrite <- (assoc_L (∪)). rewrite (idemp_L (∪)).
  reflexivity.
Qed.

Lemma unset_false (v : option pystr) :
  unset v = false <-> exists s, v = Some s /\ s <> [].
Proof.
  destruct v as [[|c s]|]; simpl; split; try discriminate.
  - intros (s & [= <-] & Hne). contradiction.
  - intros _. eexists. split; [reflexivity | discriminate].
  - reflexivity.
  - intros (s & E & _). discriminate.
Qed.

(** X12. Importing the application succeeds exactly when, after the .env
    file has been merged in, [DATABASE_URL] is set and not empty, the
    engine can be created from it, and [GEMINI_API_KEY] is set and not
    empty.  A missing or empty [DATABASE_URL] is reported first, whatever
    the API key is, and then the engine is not created. *)
Theorem import_succeeds_iff_configured
    (create_engine : pystr -> result Database)
    (dotenv environ : gmap pystr pystr) :
  let merged := load_dotenv dotenv environ in
  (forall (engine : Database) (key : pystr),
     import_main create_engine dotenv environ = Ok (engine, key) <->
     exists url : pystr,
       merged !! py "DATABASE_URL" = Some url /\ url <> []
       /\ create_engine url = Ok engine
       /\ merged !! py "GEMINI_API_KEY" = Some key /\ key <> [])
  /\ (unset (merged !! py "DATABASE_URL") = true ->
      forall other_create_engine,
        import_main other_create_engine dotenv environ
        = Raise (PyError (py "DATABASE_URL environment variable not set.")))
  /\ (forall (url : pystr) (engine : Database),
        merged !! py "DATABASE_URL" = Some url -> url <> [] ->
        create_engine url = Ok engine ->
        unset (merged !! py "GEMINI_API_KEY") = true ->
        import_main create_engine dotenv environ
        = Raise (PyError (py "GEMINI_API_KEY not found in environment variables. Please set it in your .env file."))).
Proof.
  intros merged.
  unfold import_main, import_database, os_getenv.
  fold merged. split; [|split].
  - intros engine key.
    destruct (unset (merged !! py "DATABASE_URL")) eqn:Hurl.
    { split; [discriminate|].
      intros (url & Hsome & Hne & _).
      assert (unset (merged !! py "DATABASE_URL") = false) as Hset
        by (apply unset_false; eauto).
      congruence. }
    apply unset_false in Hurl as (url & Hsome & Hne).
    rewrite Hsome. change (default [] (Some url)) with url.
    destruct (create_engine url) as [engine'|e] eqn:Hengine.
    2:{ split; [discriminate|].
        intros (url' & Hsome' & _ & Hengine' & _).
        assert (url' = url) as -> by congruence.
        rewrite Hengine in Hengine'. discriminate Hengine'. }
    unfold merged. rewrite load_dotenv_twice. fold merged.
    destruct (unset (merged !! py "GEMINI_API_KEY")) eqn:Hkey.
    { split; [discriminate|].
      intros (_ & _ & _ & _ & Hk & Hkne).
      assert (unset (merged !! py "GEMINI_API_KEY") = false) as Hset
        by (apply unset_false; eauto).
      congruence. }
    apply unset_false in Hkey as (key' & Hk & Hkne).
    rewrite Hk. change (default [] (Some key')) with key'. split.
    + intros [= <- <-]. exists url. auto.
    + intros (url' & Hsome' & _ & Hengine' & Hk' & _).
      assert (url' = url) as -> by congruence.
      rewrite Hengine in Hengine'. injection Hengine' as <-.
      injection Hk' as <-. reflexivity.
  - intros Hunset other. fold merged. rewrite Hunset. reflexivity.
  - intros url engine Hsome Hne Hengine Hkey.
    assert (unset (merged !! py "DATABASE_URL") = false) as ->
      by (apply unset_false; eauto).
    rewrite Hsome. change (default [] (Some url)) with url. rewrite Hengine.
    unfold merged. rewrite load_dotenv_twice. fold merged.
    rewrite Hkey. reflexivity.
Qed.

(** X13. The environment of the process wins over the .env file: a variable
    set in the process is read as set there, and one set only in the file is
    read from the file.  So a [DATABASE_URL] that the process sets to the
    empty string stops the import even when the file gives a URL. *)
Theorem process_environment_wins
    (create_engine : pystr -> result Database)
    (dotenv environ : gmap pystr pystr) (key : pystr) :
  (forall v, environ !! key = Some v ->
             os_getenv (load_dotenv dotenv environ) key = Some v)
  /\ (environ !! key = None ->
      os_getenv (load_dotenv dotenv environ) key = dotenv !! key)
  /\ (environ !! py "DATABASE_URL" = Some [] ->
      import_main create_engine dotenv environ
      = Raise (PyError (py "DATABASE_URL environment variable not set."))).
Proof.
  unfold os_getenv, load_dotenv. split; [|split].
  - intros v Hv. apply lookup_union_Some_l. exact Hv.
  - intros Hnone. apply lookup_union_r. exact Hnone.
  - intros Hempty. unfold import_main, import_database, os_getenv, load_dotenv.
    rewrite (lookup_union_Some_l _ _ _ _ Hempty). reflexivity.
Qed.

(** ** The order of effects *)

(** X14. Storage is written only after an analysis has been obtained: a
    request that reaches [session.add] got a reply from the model for the
    text of the body and the reply parsed; it reaches [session.commit]
    only if [add] did not raise; and it rolls back exactly when it answers
    with the persistence error. *)
Theorem storage_touched_only_after_analysis
    (env : Env) (engine : Database) (x_user_id : option Z)
    (body : EntryCreateRequest.raw) :
  let r := fst (post_analyze_entry env engine x_user_id body) in
  let st := snd (post_analyze_entry env engine x_user_id body) in
  (In SessionAdd (trace st) ->
   exists (txt out : pystr) (a : SimplifiedAnalysis.t),
     EntryCreateRequest.raw_text body = Some txt
     /\ llm_reply env (prompt_invoke env txt) = Ok out
     /\ parser_parse env out = Ok a)
  /\ (In SessionCommit (trace st) -> add_fault env = None)
  /\ (In SessionRollback (trace st) <->
      exists cause : pystr,
        r = Raise (HTTPException 500
                     (py "Failed to save the entry to the database: "
                      ++ cause))).
Proof.
  intros r0 st0. subst r0 st0.
  outcome_cases env engine x_user_id body r st Hrun;
    try (destruct Hfault as [[Hadd ->] | (Hadd & Hcommit & ->)]);
    simpl trace; simpl In;
    (split;
     [ intros Hin;
       repeat (destruct Hin as [Hin | Hin]; try discriminate Hin);
       try contradiction;
       exists (EntryCreateRequest.text ed), out, a;
       (split; [apply validate_text; exact Hvalid | split; assumption])
     | split;
       [ intros Hin;
         repeat (destruct Hin as [Hin | Hin]; try discriminate Hin);
         try contradiction; assumption
       | split;
         [ intros Hin;
           repeat (destruct Hin as [Hin | Hin]; try discriminate Hin);
           try contradiction; eexists; reflexivity
         | intros [c E]; try discriminate E; auto 10 ] ] ]).
Qed.

(** ** The further properties at the running instance *)

Lemma refresh_failure_then_retry_stores_twice_witness :
  exists st1 st2 row1 row2,
    status_of (fst (post_analyze_entry Demo.env_refresh_fails Demo.engine
                      (Some 7) (Demo.body "Today was a good day."))) = 500
    /\ snd (post_analyze_entry Demo.env_refresh_fails Demo.engine
              (Some 7) (Demo.body "Today was a good day.")) = st1
    /\ rows_of st1 = [row1]
    /\ post_analyze_entry Demo.env (bind (session st1)) (Some 7)
         (Demo.body "Today was a good day.") = (Ok Demo.analysis, st2)
    /\ rows_of st2 = [row1; row2]
    /\ JournalEntry.text row1 = JournalEntry.text row2.
Proof.
  destruct (refresh_failure_then_retry_stores_twice
              Demo.env_refresh_fails Demo.env Demo.engine 7 Demo.user7
              (Demo.body "Today was a good day.") Demo.good_day
              Demo.reply Demo.reply Demo.analysis Demo.analysis
              (py "connection reset"))
    as (st1 & st2 & row1 & row2 & Hrun1 & Hrows1 & Hrun2 & Hrows2
        & Htext1 & Htext2 & _);
    try reflexivity; try discriminate.
  exists st1, st2, row1, row2. rewrite Hrun1.
  split; [reflexivity|]. split; [reflexivity|]. split; [exact Hrows1|].
  split; [exact Hrun2|]. split; [exact Hrows2|].
  rewrite Htext1, Htext2. reflexivity.
Defined.

Lemma requests_keep_database_ok_witness :
  Database_ok Demo.engine
  /\ Database_ok
       (bind (session (snd (post_analyze_entry Demo.env Demo.engine (Some 7)
                              (Demo.body "Today was a good day."))))).
Proof.
  assert (Hok : Database_ok Demo.engine) by (split; constructor).
  split; [exact Hok|].
  apply (requests_keep_database_ok Demo.env Demo.engine (Some 7)
           (Demo.body "Today was a good day.") Hok).
Defined.

Lemma get_current_user_returns_the_stored_row_witness :
  fst (get_current_user (Some 7) Demo.entered) = Ok Demo.user7.
Proof.
  refine (f_equal fst
            (get_current_user_returns_the_stored_row Demo.entered Demo.user7
               _ _)).
  - repeat constructor. intros Hin. inversion Hin.
  - left. reflexivity.
Defined.

Lemma stored_word_count_bounds_witness :
  exists row,
    rows_of (snd (analyze_and_save_entry Demo.env Demo.good_day Demo.user7
                    Demo.entered)) = [row]
    /\ 0 <= JournalEntry.word_count row
    /\ 2 * JournalEntry.word_count row <= 21 + 1.
Proof.
  destruct (stored_word_count_bounds Demo.env Demo.good_day Demo.user7
              Demo.entered
              (snd (analyze_and_save_entry Demo.env Demo.good_day Demo.user7
                      Demo.entered))
              Demo.analysis)
    as (row & Hrows & Hlow & Hhigh & _).
  - reflexivity.
  - vm_compute. reflexivity.
  - exists row. split; [exact Hrows|]. split; [exact Hlow | exact Hhigh].
Defined.

Lemma split_at_whitespace_witness :
  split (py "good day.") = split (py "good") ++ split (py "day.")
  /\ length (split (py "good day.")) = 2%nat.
Proof.
  destruct (split_at_whitespace (py "good") (py "day.") 32%N)
    as (Htokens & Hcount & _).
  - reflexivity.
  - split; [exact Htokens | exact Hcount].
Defined.

Lemma import_succeeds_iff_configured_witness :
  import_main (fun _ => Ok Demo.engine)
    {[ py "DATABASE_URL" := py "sqlite:///journal.db" ]}
    {[ py "GEMINI_API_KEY" := py "k-123" ]}
  = Ok (Demo.engine, py "k-123").
Proof.
  apply (proj1 (import_succeeds_iff_configured (fun _ => Ok Demo.engine)
                  {[ py "DATABASE_URL" := py "sqlite:///journal.db" ]}
                  {[ py "GEMINI_API_KEY" := py "k-123" ]})).
  exists (py "sqlite:///journal.db").
  split; [vm_compute; reflexivity|]. split; [discriminate|].
  split; [reflexivity|]. split; [vm_compute; reflexivity | discriminate].
Defined.

Lemma process_environment_wins_witness :
  import_main (fun _ => Ok Demo.engine)
    {[ py "DATABASE_URL" := py "sqlite:///journal.db" ]}
    (<[ py "DATABASE_URL" := [] ]> {[ py "GEMINI_API_KEY" := py "k-123" ]})
  = Raise (PyError (py "DATABASE_URL environment variable not set.")).
Proof.
  apply (proj2 (proj2 (process_environment_wins (fun _ => Ok Demo.engine)
                         {[ py "DATABASE_URL" := py "sqlite:///journal.db" ]}
                         (<[ py "DATABASE_URL" := [] ]>
                            {[ py "GEMINI_API_KEY" := py "k-123" ]})
                         (py "DATABASE_URL")))).
  vm_compute. reflexivity.
Defined.

Example template_with_braces :
  PromptTemplate_invoke Demo.env (py "{entry} }{")
  = Ok (prompt_invoke Demo.env (py "{entry} }{")).
Proof. vm_compute. reflexivity. Qed.

Example format_examples :
  format_scan {[ py "a" := py "1" ]} None (py "x{a}y{{z}}") = Ok (py "x1y{z}")
  /\ format_scan {[ py "a" := py "1" ]} None (py "x{b}")
     = Raise (PyError (py "'b'"))
  /\ format_scan {[ py "a" := py "1" ]} None (py "x}")
     = Raise (PyError (py "Single '}' encountered in format string")).
Proof. repeat split; vm_compute; reflexivity. Qed.
